(** * metabase/lib/dataset.js: column resolution and table.columns sync

    A shallow embedding of [frontend/src/metabase/lib/dataset.js] and the
    properties its specification states about it.

    Conventions of the embedding.
    - A JavaScript number that is a dataset cell or a bin width is an IEEE 754
      binary64 value ([PrimFloat.float]).  A number that is a field id, an
      aggregation index or sits inside a field reference is a [JsNumber]: an
      integer, [NaN], an infinity or the negative zero.  Numbers with a
      fractional part are not modelled.
    - A string is a sequence of 8-bit code units.
    - A value that may be [null] or [undefined] is an [option]; the code tests
      both at once ([x != null]) or by truthiness.
    - A column is an object: [===] and [Array.prototype.indexOf] compare
      objects by identity, so a column carries its identity [oid].
    - [console.warn] appends to a log; a method call or a property read on
      [undefined] or [null] raises a [TypeError]. *)

From Stdlib Require Import List ZArith Bool String Ascii Lia.
From Stdlib Require Import Floats.
From Stdlib Require DecimalString DecimalPos DecimalZ.
Import ListNotations.

Local Open Scope Z_scope.
Local Open Scope string_scope.
Local Open Scope list_scope.

(** ** Values *)

(** [Value] of metabase/meta/types/Dataset: a cell of a result row. *)
Inductive Value : Type :=
| VNull
| VBool (b : bool)
| VNum (x : float)
| VStr (s : string).

(** A number of a field reference.  [Integer n] stands for the integer [n];
    a double holds it exactly, and JavaScript prints it digit by digit, when
    [|n| <= 2^53 - 1].  The other constructors are the numbers that are no
    integer and that [JSON.stringify] does not print as themselves. *)
Inductive JsNumber : Type :=
| Integer (n : Z)
| NaN
| Infinity (negative : bool)
| NegZero.

Coercion Integer : Z >-> JsNumber.

#[local] Unset Elimination Schemes.
(** An MBQL clause as the code handles it: a JSON tree.  A field reference is
    a [JArr], for instance [["fk->", 1, 2]]. *)
Inductive Json : Type :=
| JNull
| JBool (b : bool)
| JNum (n : JsNumber)
| JStr (s : string)
| JArr (l : list Json).
#[local] Set Elimination Schemes.

Definition FieldReference := Json.

Section JsonInduction.

Variable P : Json -> Prop.
Hypothesis P_null : P JNull.
Hypothesis P_bool : forall b, P (JBool b).
Hypothesis P_num : forall n, P (JNum n).
Hypothesis P_str : forall s, P (JStr s).
Hypothesis P_arr : forall l, Forall P l -> P (JArr l).

(** Induction on a JSON tree, with the hypothesis on every element of an
    array. *)
Fixpoint Json_tree_ind (j : Json) : P j :=
  match j with
  | JNull => P_null
  | JBool b => P_bool b
  | JNum n => P_num n
  | JStr s => P_str s
  | JArr l =>
      P_arr l
        ((fix elems (l : list Json) : Forall P l :=
            match l with
            | [] => Forall_nil P
            | x :: l' => Forall_cons x (Json_tree_ind x) (elems l')
            end) l)
  end.

End JsonInduction.

(** ** JavaScript primitives the module relies on *)

Module JS.

(** ToBoolean on a number: [+0], [-0] and [NaN] are falsy. *)
Definition truthy_number (x : float) : bool :=
  negb (PrimFloat.eqb x 0%float) && PrimFloat.eqb x x.

(** ToBoolean on a string: only the empty string is falsy. *)
Definition truthy_string (s : string) : bool :=
  match s with EmptyString => false | String _ _ => true end.

(** ToBoolean on a number of a reference: [0], [-0] and [NaN] are falsy. *)
Definition truthy_jsnumber (x : JsNumber) : bool :=
  match x with
  | Integer n => negb (n =? 0)%Z
  | NaN => false
  | Infinity _ => true
  | NegZero => false
  end.

(** ToBoolean on a JSON value: an array is truthy, also when empty. *)
Definition truthy (j : Json) : bool :=
  match j with
  | JNull => false
  | JBool b => b
  | JNum n => truthy_jsnumber n
  | JStr s => truthy_string s
  | JArr _ => true
  end.

(** ToBoolean on a value that may be [null] or [undefined]. *)
Definition truthy_opt {A} (t : A -> bool) (o : option A) : bool :=
  match o with Some a => t a | None => false end.

(** [x == null]: true of [null] and of [undefined] only. *)
Definition nullish (o : option Json) : bool :=
  match o with
  | None | Some JNull => true
  | Some _ => false
  end.

End JS.

(** ** Underscore's [_.isEqual], [_.findIndex] and [_.all] *)

Module Underscore.

(** Numbers under [_.isEqual]: [NaN] equals [NaN], and [0] differs from [-0]
    (compared through [1 / a === 1 / b]). *)
Definition isEqual_number (a b : float) : bool :=
  if PrimFloat.eqb a a then
    if PrimFloat.eqb a 0%float
    then PrimFloat.eqb (1 / a)%float (1 / b)%float
    else PrimFloat.eqb a b
  else negb (PrimFloat.eqb b b).

Definition isEqual_value (a b : Value) : bool :=
  match a, b with
  | VNull, VNull => true
  | VBool x, VBool y => Bool.eqb x y
  | VNum x, VNum y => isEqual_number x y
  | VStr x, VStr y => String.eqb x y
  | _, _ => false
  end.

(** Arrays are equal when they have the same length and equal elements. *)
Fixpoint isEqual_array {A} (eq : A -> A -> bool) (a b : list A) : bool :=
  match a, b with
  | [], [] => true
  | x :: a', y :: b' => eq x y && isEqual_array eq a' b'
  | _, _ => false
  end.

(** The same comparison on the numbers of a reference: [NaN] equals [NaN];
    against a zero, [1 / a === 1 / b] holds for the zero of the same sign
    only (the inverse of any other of these numbers is finite); otherwise
    [a === b]. *)
Definition isEqual_jsnumber (a b : JsNumber) : bool :=
  match a, b with
  | NaN, NaN => true
  | NegZero, NegZero => true
  | Infinity s, Infinity t => Bool.eqb s t
  | Integer x, Integer y => (x =? y)%Z
  | _, _ => false
  end.

Fixpoint isEqual (a b : Json) : bool :=
  match a, b with
  | JNull, JNull => true
  | JBool x, JBool y => Bool.eqb x y
  | JNum x, JNum y => isEqual_jsnumber x y
  | JStr x, JStr y => String.eqb x y
  | JArr x, JArr y =>
      (fix go (x y : list Json) : bool :=
         match x, y with
         | [], [] => true
         | u :: x', v :: y' => isEqual u v && go x' y'
         | _, _ => false
         end) x y
  | _, _ => false
  end.

(** [_.isEqual] when either side may be [null], which [None] stands for. *)
Definition isEqual_opt (a b : option Json) : bool :=
  isEqual (match a with Some x => x | None => JNull end)
          (match b with Some y => y | None => JNull end).

(** [_.findIndex(array, predicate)]: the first index whose element satisfies
    the predicate, or [-1]. *)
Fixpoint findIndex_from {A} (p : A -> bool) (l : list A) (i : Z) : Z :=
  match l with
  | [] => -1
  | x :: l' => if p x then i else findIndex_from p l' (i + 1)
  end.

Definition findIndex {A} (p : A -> bool) (l : list A) : Z :=
  findIndex_from p l 0.

(** [_.all(array, predicate)], the predicate receiving element and index. *)
Fixpoint all_from {A} (p : A -> nat -> bool) (l : list A) (i : nat) : bool :=
  match l with
  | [] => true
  | x :: l' => p x i && all_from p l' (S i)
  end.

Definition all {A} (p : A -> nat -> bool) (l : list A) : bool :=
  all_from p l 0%nat.

End Underscore.

(** ** Data model *)

Record BinningInfo : Type := mkBinningInfo {
  bin_width : option float
}.

(** [column.id] is a field id or, in nested queries, already a field
    reference (an array). *)
Inductive ColumnId : Type :=
| IdNum (n : JsNumber)
| IdRef (r : list Json).

Record Column : Type := mkColumn {
  oid : nat;
  id : option ColumnId;
  fk_field_id : option JsNumber;
  expression_name : option string;
  source : string;
  name : string;
  binning_info : option BinningInfo
}.

Record ColumnSetting : Type := mkColumnSetting {
  cs_name : string;
  cs_fieldRef : option FieldReference;
  cs_enabled : bool
}.

Record DatasetData : Type := mkDatasetData {
  rows : list (list Value)
}.

(** [a === b] on two column objects. *)
Definition same_object (a b : Column) : bool := Nat.eqb (oid a) (oid b).

(** ** Misc predicates *)

Definition datasetContainsNoResults (data : DatasetData) : bool :=
  (Z.of_nat (List.length (rows data)) =? 0)%Z
  || Underscore.isEqual_array (Underscore.isEqual_array Underscore.isEqual_value)
       (rows data) [[VNull]].

(** [None] is the [undefined] the function returns when it falls off its end. *)
Definition rangeForValue (value : Value) (column : option Column)
  : option (float * float) :=
  match value, column with
  | VNum v, Some c =>
      match binning_info c with
      | Some bi =>
          match bin_width bi with
          | Some w =>
              if JS.truthy_number w then Some (v, (v + w)%float) else None
          | None => None
          end
      | None => None
      end
  | _, _ => None
  end.

(** ** [JSON.stringify] on JSON trees *)

(** [Number::toString] on an integer beyond the safe range.  There the engine
    prints the shortest digits that read back as the same double, in exponent
    form from [10^21] on, and ECMAScript leaves the last digit to it: the
    function is taken as given. *)
Class Engine : Type := {
  Number_toString : Z -> string
}.

Module JSON.

Local Open Scope string_scope.

Definition dquote : ascii := "034"%char.
Definition backslash : ascii := "\"%char.

Definition hex_digit (n : nat) : ascii :=
  match n with
  | 0 => "0" | 1 => "1" | 2 => "2" | 3 => "3" | 4 => "4" | 5 => "5"
  | 6 => "6" | 7 => "7" | 8 => "8" | 9 => "9" | 10 => "a" | 11 => "b"
  | 12 => "c" | 13 => "d" | 14 => "e" | _ => "f"
  end%nat%char.

(** QuoteJSONString on one code unit: the quote and the backslash are
    escaped, the control characters get their short escape or [\u00xx]. *)
Definition escape_char (c : ascii) : string :=
  if Ascii.eqb c dquote then String backslash (String dquote "")
  else if Ascii.eqb c backslash then String backslash (String backslash "")
  else
    let n := nat_of_ascii c in
    match n with
    | 8 => "\b" | 12 => "\f" | 10 => "\n" | 13 => "\r" | 9 => "\t"
    | _ =>
        if (n <? 32)%nat
        then "\u00" ++ String (hex_digit (n / 16)) (String (hex_digit (n mod 16)) "")
        else String c ""
    end%nat.

Fixpoint quote_body (s : string) : string :=
  match s with
  | "" => ""
  | String c s' => escape_char c ++ quote_body s'
  end.

Definition quote (s : string) : string :=
  String dquote (quote_body s ++ String dquote "").

(** [Number.MAX_SAFE_INTEGER] *)
Definition MAX_SAFE_INTEGER : Z := 2 ^ 53 - 1.

Definition is_safe_integer (n : Z) : bool :=
  (- MAX_SAFE_INTEGER <=? n)%Z && (n <=? MAX_SAFE_INTEGER)%Z.

(** A safe integer prints in decimal, with a leading minus sign when
    negative. *)
Definition digits (n : Z) : string :=
  DecimalString.NilZero.string_of_int (Z.to_int n).

Section Printing.

Context {E : Engine}.

(** How [JSON.stringify] prints a number: [NaN] and the infinities as
    [null], the negative zero as [0]. *)
Definition number_to_string (x : JsNumber) : string :=
  match x with
  | Integer n => if is_safe_integer n then digits n else Number_toString n
  | NaN => "null"
  | Infinity _ => "null"
  | NegZero => "0"
  end.

Fixpoint stringify (j : Json) : string :=
  match j with
  | JNull => "null"
  | JBool true => "true"
  | JBool false => "false"
  | JNum n => number_to_string n
  | JStr s => quote s
  | JArr l => "[" ++ String.concat "," (map stringify l) ++ "]"
  end.

(** The text after the first element of an array. *)
Fixpoint elements_tail (l : list Json) (r : string) : string :=
  match l with
  | [] => String "]" r
  | x :: l' => String "," (stringify x ++ elements_tail l' r)
  end.

End Printing.

(** A reference whose numbers are all safe integers: what it prints does not
    depend on the engine, and no two of its numbers print alike. *)
Fixpoint plain (j : Json) : bool :=
  match j with
  | JNum (Integer n) => is_safe_integer n
  | JNum _ => false
  | JArr l => forallb plain l
  | _ => true
  end.

(** Reading one escaped code unit back from the front of a string; used to
    show that [quote] can be read back. *)
Definition hex_value (c : ascii) : nat :=
  let n := nat_of_ascii c in
  if (n <? 58)%nat then (n - 48)%nat else (n - 87)%nat.

Definition unescape_char (s : string) : option (ascii * string) :=
  match s with
  | "" => None
  | String c r =>
      if Ascii.eqb c dquote then None
      else if Ascii.eqb c backslash then
        match r with
        | "" => None
        | String e r' =>
            if Ascii.eqb e dquote then Some (dquote, r')
            else if Ascii.eqb e backslash then Some (backslash, r')
            else if Ascii.eqb e "b" then Some ("008"%char, r')
            else if Ascii.eqb e "f" then Some ("012"%char, r')
            else if Ascii.eqb e "n" then Some ("010"%char, r')
            else if Ascii.eqb e "r" then Some ("013"%char, r')
            else if Ascii.eqb e "t" then Some ("009"%char, r')
            else
              match r' with
              | String _ (String _ (String h (String l r''))) =>
                  Some (ascii_of_nat (16 * hex_value h + hex_value l), r'')
              | _ => None
              end
        end
      else Some (c, r)
  end.

(** The characters a printed integer is made of. *)
Definition is_num_char (c : ascii) : bool :=
  Ascii.eqb c "-" || ((48 <=? nat_of_ascii c)%nat && (nat_of_ascii c <=? 57)%nat).

(** The kind of value a text starts: told by its first character. *)
Definition head_kind (s : string) : nat :=
  match s with
  | "" => 6
  | String c _ =>
      if Ascii.eqb c "n" then 0
      else if Ascii.eqb c "t" then 1
      else if Ascii.eqb c "f" then 2
      else if is_num_char c then 3
      else if Ascii.eqb c dquote then 4
      else if Ascii.eqb c "[" then 5
      else 6
  end%nat.

Definition kind (j : Json) : nat :=
  match j with
  | JNull => 0
  | JBool true => 1
  | JBool false => 2
  | JNum _ => 3
  | JStr _ => 4
  | JArr _ => 5
  end%nat.

(** What follows a value inside an array: a comma or the closing bracket;
    nothing follows the outermost value. *)
Definition closes (r : string) : Prop :=
  match r with
  | "" => True
  | String c _ => c = ","%char \/ c = "]"%char
  end.

Fixpoint all_chars (p : ascii -> bool) (s : string) : bool :=
  match s with
  | "" => true
  | String c s' => p c && all_chars p s'
  end.

(** A printed plain value followed by a closing text determines both. *)
Definition reads_back {E : Engine} (a : Json) : Prop :=
  plain a = true ->
  forall b r1 r2, plain b = true -> closes r1 -> closes r2 ->
    stringify a ++ r1 = stringify b ++ r2 -> a = b /\ r1 = r2.

End JSON.

(** ** Column resolution *)

(** [array.indexOf(x)]: the first index holding [x] itself, or [-1]. *)
Definition indexOf (column : Column) (l : list Column) : Z :=
  Underscore.findIndex (fun c => same_object c column) l.

Definition is_aggregation (c : Column) : bool :=
  String.eqb (source c) "aggregation".

Definition fieldRefForColumn (column : Column) (columns : option (list Column))
  : option FieldReference :=
  match id column with
  | Some (IdRef r) => Some (JArr r)
  | Some (IdNum n) =>
      match fk_field_id column with
      | Some fk => Some (JArr [JStr "fk->"; JNum fk; JNum n])
      | None => Some (JArr [JStr "field-id"; JNum n])
      end
  | None =>
      match expression_name column with
      | Some e => Some (JArr [JStr "expression"; JStr e])
      | None =>
          match is_aggregation column, columns with
          | true, Some cols =>
              let aggIndex := indexOf column (filter is_aggregation cols) in
              if (aggIndex >=? 0)%Z
              then Some (JArr [JStr "aggregation"; JNum aggIndex])
              else None
          | _, _ => None
          end
      end
  end.

Definition keyForColumn {E : Engine} (column : Column) : string :=
  let ref := fieldRefForColumn column None in
  JSON.stringify
    (match ref with
     | Some r =>
         if JS.truthy r then JArr [JStr "ref"; r]
         else JArr [JStr "name"; JStr (name column)]
     | None => JArr [JStr "name"; JStr (name column)]
     end).

(** ** The collaborators: metabase-lib's queries and dimensions

    [StructuredQuery], [Dimension] and the question object live outside this
    module; the functions below take them as an interface. *)

(** What [question.query()] returns: a [StructuredQuery] or another kind of
    query (a native one), told apart by [instanceof]. *)
Inductive QueryObject (S O : Type) : Type :=
| IsStructured (q : S)
| NotStructured (o : O).
Arguments IsStructured {S O} q.
Arguments NotStructured {S O} o.

Class MetabaseLib : Type := {
  Dimension : Type;
  StructuredQuery : Type;
  OtherQuery : Type;
  Question : Type;
  (** [Dimension.parseMBQL(ref)], [null] when nothing parses. *)
  parseMBQL : option FieldReference -> option Dimension;
  (** [dimension.mbql()] *)
  mbql : Dimension -> FieldReference;
  (** [dimension.isSameBaseDimension(other)]; [other] is [None] when the
      caller passes [undefined]. *)
  isSameBaseDimension : Dimension -> option Dimension -> bool;
  clearFields : StructuredQuery -> StructuredQuery;
  addField : StructuredQuery -> FieldReference -> StructuredQuery;
  columnDimensions : StructuredQuery -> list Dimension;
  columnNames : StructuredQuery -> list string;
  (** [query.question()] *)
  question : StructuredQuery -> Question;
  (** [question.query()] *)
  query : Question -> QueryObject StructuredQuery OtherQuery;
  (** [question.settings()["table.columns"]]; an entry of the array that is
      [null] or [undefined] is [None]. *)
  table_columns : Question -> option (list (option ColumnSetting))
}.

(** ** Effects: the warning log and exceptions *)

Inductive JsError : Type :=
| TypeError.

Inductive Outcome (A : Type) : Type :=
| Returned (a : A)
| Thrown (e : JsError).
Arguments Returned {A} a.
Arguments Thrown {A} e.

(** A computation yields an outcome and the settings it passed to
    [console.warn("Unknown column", _)], oldest first. *)
Definition Eff (A : Type) : Type := (Outcome A * list ColumnSetting)%type.

Definition ret {A} (a : A) : Eff A := (Returned a, []).

Definition throw {A} (e : JsError) : Eff A := (Thrown e, []).

Definition warn (cs : ColumnSetting) : Eff unit := (Returned tt, [cs]).

Definition bind {A B} (m : Eff A) (k : A -> Eff B) : Eff B :=
  match m with
  | (Returned a, w) => let (o, w') := k a in (o, w ++ w')
  | (Thrown e, w) => (Thrown e, w)
  end.

Declare Scope eff_scope.
Delimit Scope eff_scope with eff.
Notation "x <- m ;; k" := (bind m (fun x => k))
  (at level 61, m at next level, right associativity) : eff_scope.
Notation "m ;;; k" := (bind m (fun _ => k))
  (at level 61, right associativity) : eff_scope.

(** [for (const x of xs) { s = body(s, x) }] *)
Fixpoint for_of {A S} (xs : list A) (body : S -> A -> Eff S) (s : S) : Eff S :=
  match xs with
  | [] => ret s
  | x :: xs' => (s' <- body s x ;; for_of xs' body s')%eff
  end.

(** ** Column-setting lookup and settings reconciliation *)

Section Dataset.

Context {L : MetabaseLib}.

Definition normalizeFieldRef (fieldRef : option FieldReference)
  : option FieldReference :=
  match parseMBQL fieldRef with
  | Some dimension => Some (mbql dimension)
  | None => None
  end.

Definition findColumnIndexForColumnSetting
  (columns : list Column) (columnSetting : ColumnSetting) : Z :=
  let fieldRef := normalizeFieldRef (cs_fieldRef columnSetting) in
  let by_name :=
    Underscore.findIndex
      (fun col => String.eqb (name col) (cs_name columnSetting)) columns in
  if negb (JS.nullish fieldRef) then
    let index :=
      Underscore.findIndex
        (fun col =>
           Underscore.isEqual_opt fieldRef
             (normalizeFieldRef (fieldRefForColumn col None)))
        columns in
    if (index >=? 0)%Z then index else by_name
  else by_name.

(** [columns[index]] is [undefined] past the end of the array. *)
Definition findColumnForColumnSetting
  (columns : list Column) (columnSetting : ColumnSetting) : option Column :=
  let index := findColumnIndexForColumnSetting columns columnSetting in
  if (index >=? 0)%Z then nth_error columns (Z.to_nat index) else None.

(** The loop body's branch for a setting that carries no field reference. *)
Definition sync_setting_by_name (columnDimensions : list Dimension)
  (columnNames : list string) (query : StructuredQuery)
  (columnSetting : ColumnSetting) : Eff StructuredQuery :=
  if JS.truthy_string (cs_name columnSetting) then
    let index :=
      Underscore.findIndex
        (fun name => String.eqb name (cs_name columnSetting)) columnNames in
    if (index >=? 0)%Z then
      match nth_error columnDimensions (Z.to_nat index) with
      | Some d => ret (addField query (mbql d))
      | None => throw TypeError
      end
    else (warn columnSetting ;;; ret query)%eff
  else (warn columnSetting ;;; ret query)%eff.

(** The body of the loop over the column settings. *)
Definition sync_setting (columnDimensions : list Dimension)
  (columnNames : list string) (query : StructuredQuery)
  (columnSetting : ColumnSetting) : Eff StructuredQuery :=
  if cs_enabled columnSetting then
    match cs_fieldRef columnSetting with
    | Some r =>
        if JS.truthy r then ret (addField query r)
        else sync_setting_by_name columnDimensions columnNames query columnSetting
    | None =>
        sync_setting_by_name columnDimensions columnNames query columnSetting
    end
  else ret query.

(** One turn of the loop: reading [columnSetting.enabled] raises when the
    entry is [null] or [undefined]. *)
Definition sync_entry (columnDimensions : list Dimension)
  (columnNames : list string) (query : StructuredQuery)
  (columnSetting : option ColumnSetting) : Eff StructuredQuery :=
  match columnSetting with
  | Some setting => sync_setting columnDimensions columnNames query setting
  | None => throw TypeError
  end.

Definition syncTableColumnsToQuery (q : Question) : Eff Question :=
  match table_columns q, query q with
  | Some columnSettings, IsStructured query0 =>
      let query1 := clearFields query0 in
      let columnDimensions0 := columnDimensions query1 in
      let columnNames0 := columnNames query1 in
      (query2 <- for_of columnSettings
                   (sync_entry columnDimensions0 columnNames0) query1 ;;
       let newColumnDimensions := columnDimensions query2 in
       if (Nat.eqb (List.length columnDimensions0)
                   (List.length newColumnDimensions))
          && Underscore.all
               (fun d i => isSameBaseDimension d (nth_error newColumnDimensions i))
               columnDimensions0
       then ret (question (clearFields query2))
       else ret (question query2))%eff
  | _, _ => ret q
  end.

End Dataset.

(** ** A small instance of the interface

    A query over one table whose columns are plain fields, used to run the
    functions on concrete inputs.  It is an example of the interface, not
    metabase-lib itself. *)

Module Sample.

Record Dim : Type := mkDim {
  dim_field : Z;
  dim_unit : option string
}.

Record SQ : Type := mkSQ {
  sq_table : list (string * Z);
  sq_fields : list FieldReference;
  sq_settings : option (list (option ColumnSetting))
}.

Record Qn : Type := mkQn {
  qn_query : QueryObject SQ string;
  qn_settings : option (list (option ColumnSetting))
}.

Definition parse (r : option FieldReference) : option Dim :=
  match r with
  | Some (JNum (Integer n)) => Some (mkDim n None)
  | Some (JArr [JStr "field-id"; JNum (Integer n)]) => Some (mkDim n None)
  | Some (JArr [JStr "fk->"; JNum _; JNum (Integer n)]) => Some (mkDim n None)
  | Some (JArr [JStr "datetime-field";
                JArr [JStr "field-id"; JNum (Integer n)]; JStr u]) =>
      Some (mkDim n (Some u))
  | _ => None
  end.

Definition to_mbql (d : Dim) : FieldReference :=
  match dim_unit d with
  | None => JArr [JStr "field-id"; JNum (dim_field d)]
  | Some u =>
      JArr [JStr "datetime-field"; JArr [JStr "field-id"; JNum (dim_field d)]; JStr u]
  end.

Definition same_base (d : Dim) (o : option Dim) : bool :=
  match o with
  | Some d' => (dim_field d =? dim_field d')%Z
  | None => false
  end.

Fixpoint parse_all (l : list FieldReference) : list Dim :=
  match l with
  | [] => []
  | r :: l' =>
      match parse (Some r) with
      | Some d => d :: parse_all l'
      | None => parse_all l'
      end
  end.

Definition dims (q : SQ) : list Dim :=
  match sq_fields q with
  | [] => map (fun c => mkDim (snd c) None) (sq_table q)
  | _ :: _ => parse_all (sq_fields q)
  end.

Definition dim_name (q : SQ) (d : Dim) : string :=
  match find (fun c => (snd c =? dim_field d)%Z) (sq_table q) with
  | Some c => fst c
  | None => ""
  end.

#[global] Instance lib : MetabaseLib := {|
  Dimension := Dim;
  StructuredQuery := SQ;
  OtherQuery := string;
  Question := Qn;
  parseMBQL := parse;
  mbql := to_mbql;
  isSameBaseDimension := same_base;
  clearFields := fun q => mkSQ (sq_table q) [] (sq_settings q);
  addField := fun q r => mkSQ (sq_table q) (sq_fields q ++ [r]) (sq_settings q);
  columnDimensions := dims;
  columnNames := fun q => map (dim_name q) (dims q);
  question := fun q => mkQn (IsStructured q) (sq_settings q);
  query := qn_query;
  table_columns := qn_settings
|}.

(** The same queries under a library that reports one column name more than
    it has column dimensions: the pairing [syncTableColumnsToQuery] relies on
    is broken. *)
Definition lib_extra_name : MetabaseLib := {|
  Dimension := Dim;
  StructuredQuery := SQ;
  OtherQuery := string;
  Question := Qn;
  parseMBQL := parse;
  mbql := to_mbql;
  isSameBaseDimension := same_base;
  clearFields := fun q => mkSQ (sq_table q) [] (sq_settings q);
  addField := fun q r => mkSQ (sq_table q) (sq_fields q ++ [r]) (sq_settings q);
  columnDimensions := dims;
  columnNames := fun q => map (dim_name q) (dims q) ++ ["DISCOUNT"];
  question := fun q => mkQn (IsStructured q) (sq_settings q);
  query := qn_query;
  table_columns := qn_settings
|}.

(** A table with the columns [ID] (field 1), [NAME] (field 2) and
    [CREATED_AT] (field 3). *)
Definition people : list (string * Z) :=
  [("ID", 1); ("NAME", 2); ("CREATED_AT", 3)]%Z.

(** A structured query over [people] whose question carries the entries
    [entries] as [table.columns]. *)
Definition structured_entries (fields : list FieldReference)
  (entries : option (list (option ColumnSetting))) : SQ :=
  mkSQ people fields entries.

Definition question_with_entries (fields : list FieldReference)
  (entries : option (list (option ColumnSetting))) : Qn :=
  mkQn (IsStructured (structured_entries fields entries)) entries.

(** The same with well-formed settings: every entry is a setting object. *)
Definition structured (fields : list FieldReference)
  (settings : option (list ColumnSetting)) : SQ :=
  structured_entries fields (option_map (map Some) settings).

Definition question_with (fields : list FieldReference)
  (settings : option (list ColumnSetting)) : Qn :=
  question_with_entries fields (option_map (map Some) settings).

Definition setting (n : string) (r : option FieldReference) (e : bool)
  : ColumnSetting := mkColumnSetting n r e.

(** Every column shown, [NAME] through a field reference. *)
Definition all_shown : list ColumnSetting :=
  [setting "ID" None true;
   setting "NAME" (Some (JArr [JStr "field-id"; JNum 2])) true;
   setting "CREATED_AT" None true].

(** [NAME] hidden, and a setting for a column the table does not have. *)
Definition name_hidden : list ColumnSetting :=
  [setting "ID" None true;
   setting "NAME" (Some (JArr [JStr "field-id"; JNum 2])) false;
   setting "DISCOUNT" None true;
   setting "CREATED_AT" None true].

(** Result columns: two plain fields, the same field reached through a
    foreign key, a breakout and two aggregations. *)
Definition id_col : Column :=
  mkColumn 0 (Some (IdNum 1)) None None "fields" "ID" None.
Definition name_col : Column :=
  mkColumn 1 (Some (IdNum 2)) None None "fields" "NAME" None.
Definition fk_col : Column :=
  mkColumn 2 (Some (IdNum 1)) (Some (Integer 7)) None "fields" "ID" None.
Definition nested_col : Column :=
  mkColumn 3 (Some (IdRef [JStr "field-literal"; JStr "total"]))
    (Some (Integer 9)) None "fields" "total" None.
Definition month_col : Column :=
  mkColumn 4 (Some (IdNum 3)) None None "breakout" "CREATED_AT" None.
Definition count_col : Column :=
  mkColumn 5 None None None "aggregation" "count" None.
Definition sum_col : Column :=
  mkColumn 6 None None None "aggregation" "sum" None.

(** A stand-in for the engine, which prints every digit of a large integer.
    The examples hold safe integers only, on which it is not consulted. *)
Definition engine : Engine := {| Number_toString := JSON.digits |}.

Definition binned_col (w : float) : Column :=
  mkColumn 8 (Some (IdNum 4)) None None "fields" "TOTAL"
    (Some (mkBinningInfo (Some w))).

(** A setting for a column named [DISCOUNT], between two known ones. *)
Definition discount_asked : list ColumnSetting :=
  [setting "ID" None true; setting "DISCOUNT" None true;
   setting "NAME" None true].

Definition native_question (settings : option (list ColumnSetting)) : Qn :=
  mkQn (NotStructured "SELECT 1") (option_map (map Some) settings).

End Sample.

(** ** Vocabulary of the statements *)

(** [column.binning_info.bin_width], when every step of the path is there. *)
Definition bin_width_of (column : option Column) : option float :=
  match column with
  | Some c =>
      match binning_info c with
      | Some bi => bin_width bi
      | None => None
      end
  | None => None
  end.

(** [first_at P l k]: position [k] of [l] holds an element satisfying [P], and
    no earlier position does. *)
Definition first_at {A} (P : A -> Prop) (l : list A) (k : nat) : Prop :=
  exists x, nth_error l k = Some x /\ P x
            /\ forall j y, (j < k)%nat -> nth_error l j = Some y -> ~ P y.

(** The reading of the reconciliation in the specification's words: each
    enabled setting contributes at most one field to the explicit list. *)

Section ExplicitList.

Context {L : MetabaseLib}.

(** The baseline dimension at the first baseline index whose name is [n]. *)
Definition baseline_dimension (names : list string) (dims : list Dimension)
  (n : string) : option Dimension :=
  option_map snd (find (fun nd => String.eqb (fst nd) n) (combine names dims)).

(** The field an enabled setting stands for: its own reference when it
    carries one, else the baseline dimension of its name, if any. *)
Definition setting_field (dims : list Dimension) (names : list string)
  (cs : ColumnSetting) : option FieldReference :=
  if JS.truthy_opt JS.truthy (cs_fieldRef cs) then cs_fieldRef cs
  else if JS.truthy_string (cs_name cs)
       then option_map mbql (baseline_dimension names dims (cs_name cs))
       else None.

(** An enabled setting that stands for no field. *)
Definition unresolved (dims : list Dimension) (names : list string)
  (cs : ColumnSetting) : bool :=
  cs_enabled cs
  && match setting_field dims names cs with Some _ => false | None => true end.

(** The explicit field list the settings ask for, in their order. *)
Definition explicit_fields (dims : list Dimension) (names : list string)
  (settings : list ColumnSetting) : list FieldReference :=
  flat_map
    (fun cs =>
       if cs_enabled cs
       then match setting_field dims names cs with Some r => [r] | None => [] end
       else [])
    settings.

(** The new dimensions are, position by position, the same base dimensions
    as the baseline ones. *)
Definition same_columns (baseline new : list Dimension) : Prop :=
  List.length baseline = List.length new
  /\ forall i d d',
       nth_error baseline i = Some d ->
       nth_error new i = Some d' ->
       isSameBaseDimension d (Some d') = true.

End ExplicitList.

(** * Properties *)

Section MiscPredicates.

Lemma isEqual_rows_null_sentinel (r : list (list Value)) :
  Underscore.isEqual_array (Underscore.isEqual_array Underscore.isEqual_value)
    r [[VNull]] = true <-> r = [[VNull]].
Proof.
  split.
  - destruct r as [|row r']; simpl; [discriminate|].
    destruct row as [|v row']; simpl; [discriminate|].
    destruct v; simpl; try discriminate.
    destruct row'; simpl; [|discriminate].
    destruct r'; simpl; [reflexivity|discriminate].
  - intros ->. reflexivity.
Qed.

(** C7: [datasetContainsNoResults data] is true exactly when [data.rows] is
    empty or is the array [[null]] holding one row with one null; it is false
    for [[1]] and for [[null], [null]]. *)
Theorem datasetContainsNoResults_iff :
  (forall data,
      datasetContainsNoResults data = true <->
      rows data = [] \/ rows data = [[VNull]])
  /\ datasetContainsNoResults (mkDatasetData []) = true
  /\ datasetContainsNoResults (mkDatasetData [[VNull]]) = true
  /\ datasetContainsNoResults (mkDatasetData [[VNum 1%float]]) = false
  /\ datasetContainsNoResults (mkDatasetData [[VNull]; [VNull]]) = false.
Proof.
  split; [|repeat split; reflexivity].
  intros [r]; unfold datasetContainsNoResults; simpl rows.
  rewrite orb_true_iff, isEqual_rows_null_sentinel.
  split; (intros [H|H]; [left|right; exact H]).
  - destruct r; [reflexivity|]. apply Z.eqb_eq in H. simpl List.length in H. lia.
  - subst r. reflexivity.
Qed.

End MiscPredicates.

(** C10: for a numeric value and a column whose [bin_width] is present but
    equal to zero, [rangeForValue] returns [undefined]: the test on the bin
    width is a truthiness test. *)
Theorem rangeForValue_zero_bin_width :
  forall (v : float) (c : Column) (bi : BinningInfo) (w : float),
    binning_info c = Some bi ->
    bin_width bi = Some w ->
    PrimFloat.eqb w 0%float = true ->
    rangeForValue (VNum v) (Some c) = None.
Proof.
  intros v c bi w Hbi Hw Hz. unfold rangeForValue.
  rewrite Hbi, Hw. unfold JS.truthy_number. rewrite Hz. reflexivity.
Qed.

Lemma rangeForValue_zero_bin_width_witness :
  rangeForValue (VNum 5%float) (Some (Sample.binned_col 0%float)) = None.
Proof.
  apply (rangeForValue_zero_bin_width 5%float _
           (mkBinningInfo (Some 0%float)) 0%float); reflexivity.
Defined.

(** C8 as stated fails: with a numeric value and a bin width that is set
    (to zero) the result is not [[value, value + bin_width]]. *)
Lemma rangeForValue_set_bin_width_counterexample :
  ~ (forall (v w : float) (column : option Column),
        bin_width_of column = Some w ->
        rangeForValue (VNum v) column = Some (v, (v + w)%float)).
Proof.
  intros H.
  specialize (H 5%float 0%float (Some (Sample.binned_col 0%float)) eq_refl).
  vm_compute in H. discriminate H.
Qed.

(** C8, amended: [rangeForValue value column] is [[value, value + bin_width]]
    when the value is a number and [column.binning_info.bin_width] is truthy
    (present, not zero, not NaN), and [undefined] in every other case: the
    value is not a number, or the column, its binning info or the bin width
    is absent, or the bin width is falsy. *)
Theorem rangeForValue_spec :
  forall (value : Value) (column : option Column),
    (forall v w,
        value = VNum v ->
        bin_width_of column = Some w ->
        JS.truthy_number w = true ->
        rangeForValue value column = Some (v, (v + w)%float))
    /\ ((forall v, value <> VNum v)
        \/ bin_width_of column = None
        \/ (exists w, bin_width_of column = Some w /\ JS.truthy_number w = false) ->
        rangeForValue value column = None).
Proof.
  intros value column; split.
  - intros v w -> Hw Ht. unfold rangeForValue, bin_width_of in *.
    destruct column as [c|]; [|discriminate].
    destruct (binning_info c) as [bi|]; [|discriminate].
    rewrite Hw, Ht. reflexivity.
  - intros H. unfold rangeForValue, bin_width_of in *.
    destruct value as [| b | v | s]; try reflexivity.
    destruct H as [H | [H | [w [H Ht]]]].
    + exfalso. apply (H v). reflexivity.
    + destruct column as [c|]; [|reflexivity].
      destruct (binning_info c) as [bi|]; [|reflexivity].
      rewrite H. reflexivity.
    + destruct column as [c|]; [|reflexivity].
      destruct (binning_info c) as [bi|]; [|reflexivity].
      rewrite H, Ht. reflexivity.
Qed.

Lemma rangeForValue_spec_witness :
  rangeForValue (VNum 5%float) (Some (Sample.binned_col 10%float))
  = Some (5%float, 15%float)
  /\ rangeForValue (VNum 5%float) None = None
  /\ rangeForValue (VStr "x") (Some (Sample.binned_col 10%float)) = None.
Proof.
  split; [|split].
  - apply (proj1 (rangeForValue_spec (VNum 5%float) _) 5%float 10%float);
      reflexivity.
  - apply (proj2 (rangeForValue_spec (VNum 5%float) None)).
    right; left; reflexivity.
  - apply (proj2 (rangeForValue_spec (VStr "x") _)).
    left; intros v; discriminate.
Defined.

(** ** [_.findIndex] *)

Section FindIndex.

Context {A : Type} (p : A -> bool) (P : A -> Prop).
Hypothesis p_reflects : forall x, p x = true <-> P x.

Lemma findIndex_from_found (l : list A) (k : nat) (i : Z) :
  first_at P l k -> Underscore.findIndex_from p l i = (i + Z.of_nat k)%Z.
Proof.
  revert k i. induction l as [|x l IH]; intros k i (y & Hy & HP & Hmin).
  - destruct k; discriminate Hy.
  - destruct k as [|k]; simpl in *.
    + injection Hy as ->. apply p_reflects in HP. rewrite HP. lia.
    + destruct (p x) eqn:Hx.
      * exfalso. apply (Hmin 0%nat x); [lia|reflexivity|].
        apply p_reflects, Hx.
      * rewrite (IH k (i + 1)%Z); [lia|].
        exists y; repeat split; auto.
        intros j z Hj Hz. apply (Hmin (S j) z); [lia|exact Hz].
Qed.

Lemma findIndex_from_none (l : list A) (i : Z) :
  (forall x, In x l -> ~ P x) -> Underscore.findIndex_from p l i = (-1)%Z.
Proof.
  revert i. induction l as [|x l IH]; intros i H; simpl; [reflexivity|].
  destruct (p x) eqn:Hx.
  - exfalso. apply (H x); [left; reflexivity|]. apply p_reflects, Hx.
  - apply IH. intros y Hy. apply H. right; exact Hy.
Qed.

Lemma findIndex_from_cases (l : list A) (i : Z) :
  (Underscore.findIndex_from p l i = (-1)%Z /\ forall x, In x l -> ~ P x)
  \/ exists k, Underscore.findIndex_from p l i = (i + Z.of_nat k)%Z
               /\ first_at P l k.
Proof.
  revert i. induction l as [|x l IH]; intros i; simpl.
  - left; split; [reflexivity|]. intros x [].
  - destruct (p x) eqn:Hx.
    + right. exists 0%nat. split; [lia|].
      exists x; repeat split; [apply p_reflects, Hx|]. intros j y Hj; lia.
    + destruct (IH (i + 1)%Z) as [[E N] | (k & E & y & Hy & HP & Hmin)].
      * left; split; [exact E|]. intros y [<-|Hy]; [|apply N, Hy].
        intros HP. apply p_reflects in HP. congruence.
      * right. exists (S k). split; [lia|].
        exists y; repeat split; auto.
        intros [|j] z Hj Hz; simpl in Hz.
        -- injection Hz as <-. intros HP'. apply p_reflects in HP'. congruence.
        -- apply (Hmin j z); [lia|exact Hz].
Qed.

Lemma findIndex_found (l : list A) (k : nat) :
  first_at P l k -> Underscore.findIndex p l = Z.of_nat k.
Proof. intros H. unfold Underscore.findIndex. rewrite (findIndex_from_found l k 0 H). lia. Qed.

Lemma findIndex_none (l : list A) :
  (forall x, In x l -> ~ P x) -> Underscore.findIndex p l = (-1)%Z.
Proof. apply findIndex_from_none. Qed.

Lemma findIndex_cases (l : list A) :
  (Underscore.findIndex p l = (-1)%Z /\ forall x, In x l -> ~ P x)
  \/ exists k, Underscore.findIndex p l = Z.of_nat k /\ first_at P l k.
Proof.
  unfold Underscore.findIndex.
  destruct (findIndex_from_cases l 0) as [H | (k & E & H)]; [left; exact H|].
  right. exists k. split; [rewrite E; lia|exact H].
Qed.

End FindIndex.

(** ** [fieldRefForColumn] *)

Section FieldRef.

(** C4: the branches on [column.id] are tried in order: an array is returned
    unchanged, whatever [fk_field_id] is; otherwise an id with an
    [fk_field_id] gives [["fk->", fk_field_id, id]]; otherwise an id gives
    [["field-id", id]]. *)
Theorem fieldRefForColumn_id_order :
  forall (column : Column) (columns : option (list Column)),
    (forall r, id column = Some (IdRef r) ->
               fieldRefForColumn column columns = Some (JArr r))
    /\ (forall n fk, id column = Some (IdNum n) ->
                     fk_field_id column = Some fk ->
                     fieldRefForColumn column columns
                     = Some (JArr [JStr "fk->"; JNum fk; JNum n]))
    /\ (forall n, id column = Some (IdNum n) ->
                  fk_field_id column = None ->
                  fieldRefForColumn column columns
                  = Some (JArr [JStr "field-id"; JNum n])).
Proof.
  intros column columns. unfold fieldRefForColumn.
  repeat split.
  - intros r ->. reflexivity.
  - intros n fk -> ->. reflexivity.
  - intros n -> ->. reflexivity.
Qed.

Lemma fieldRefForColumn_id_order_witness :
  fieldRefForColumn Sample.nested_col None
  = Some (JArr [JStr "field-literal"; JStr "total"])
  /\ fieldRefForColumn Sample.fk_col None
     = Some (JArr [JStr "fk->"; JNum 7; JNum 1])
  /\ fieldRefForColumn Sample.name_col None
     = Some (JArr [JStr "field-id"; JNum 2]).
Proof.
  split; [|split].
  - apply (proj1 (fieldRefForColumn_id_order _ None)). reflexivity.
  - apply (proj1 (proj2 (fieldRefForColumn_id_order _ None))); reflexivity.
  - apply (proj2 (proj2 (fieldRefForColumn_id_order _ None))); reflexivity.
Defined.

Lemma same_object_iff (c column : Column) :
  same_object c column = true <-> oid c = oid column.
Proof. unfold same_object. apply Nat.eqb_eq. Qed.

(** C2: for a column with source ["aggregation"], no id and no expression
    name, which is found at position [k] among the aggregation columns of
    [columns] ([k] being where [indexOf] meets that object),
    [fieldRefForColumn column columns] is [["aggregation", k]]; without the
    [columns] argument the result is [null]; and so it is when the array does
    not hold the column. *)
Theorem fieldRefForColumn_aggregation :
  forall (column : Column) (columns : list Column),
    id column = None ->
    expression_name column = None ->
    source column = "aggregation" ->
    (forall k,
        first_at (fun c => oid c = oid column)
                 (filter is_aggregation columns) k ->
        fieldRefForColumn column (Some columns)
        = Some (JArr [JStr "aggregation"; JNum (Z.of_nat k)]))
    /\ fieldRefForColumn column None = None
    /\ ((forall c, In c columns -> oid c <> oid column) ->
        fieldRefForColumn column (Some columns) = None).
Proof.
  intros column columns Hid Hexp Hsrc.
  assert (Hagg : is_aggregation column = true)
    by (unfold is_aggregation; rewrite Hsrc; reflexivity).
  unfold fieldRefForColumn. rewrite Hid, Hexp, Hagg.
  repeat split.
  - intros k Hk. unfold indexOf.
    rewrite (findIndex_found _ _ (fun c => same_object_iff c column) _ k Hk).
    replace (Z.of_nat k >=? 0)%Z with true by (symmetry; apply Z.geb_le; lia).
    reflexivity.
  - intros Habs. unfold indexOf.
    rewrite (findIndex_none _ _ (fun c => same_object_iff c column)).
    + reflexivity.
    + intros c Hc. apply Habs. apply filter_In in Hc. apply Hc.
Qed.

Lemma fieldRefForColumn_aggregation_witness :
  fieldRefForColumn Sample.sum_col
    (Some [Sample.month_col; Sample.count_col; Sample.sum_col])
  = Some (JArr [JStr "aggregation"; JNum 1])
  /\ fieldRefForColumn Sample.sum_col None = None
  /\ fieldRefForColumn Sample.sum_col
       (Some [Sample.month_col; Sample.count_col]) = None.
Proof.
  split; [|split].
  - apply (proj1 (fieldRefForColumn_aggregation Sample.sum_col
                    [Sample.month_col; Sample.count_col; Sample.sum_col]
                    eq_refl eq_refl eq_refl) 1%nat).
    exists Sample.sum_col. split; [reflexivity|]. split; [reflexivity|].
    intros [|[|j]] y Hj Hy; [|lia|lia].
    injection Hy as <-. discriminate.
  - apply (proj1 (proj2 (fieldRefForColumn_aggregation Sample.sum_col []
                           eq_refl eq_refl eq_refl))).
  - apply (proj2 (proj2 (fieldRefForColumn_aggregation Sample.sum_col
                           [Sample.month_col; Sample.count_col]
                           eq_refl eq_refl eq_refl))).
    intros c [<-|[<-|[]]]; discriminate.
Defined.

End FieldRef.

(** ** Structural equality of JSON trees *)


Lemma isEqual_jsnumber_eq (a b : JsNumber) :
  Underscore.isEqual_jsnumber a b = true <-> a = b.
Proof.
  destruct a as [x| |s|], b as [y| |t|]; simpl;
    try (split; [discriminate | discriminate]);
    try (split; [reflexivity | reflexivity]).
  - rewrite Z.eqb_eq. split; congruence.
  - rewrite Bool.eqb_true_iff. split; congruence.
Qed.

Lemma isEqual_eq (a b : Json) : Underscore.isEqual a b = true <-> a = b.
Proof.
  revert b. induction a as [| x | x | x | l IH] using Json_tree_ind;
    intros [| y | y | y | m]; simpl;
    try (split; [discriminate | discriminate]);
    try (split; [reflexivity | reflexivity]).
  - rewrite Bool.eqb_true_iff. split; congruence.
  - rewrite isEqual_jsnumber_eq. split; congruence.
  - rewrite String.eqb_eq. split; congruence.
  - revert m. induction IH as [| u l Hu _ IHl]; intros [| v m].
    + split; reflexivity.
    + split; discriminate.
    + split; discriminate.
    + rewrite andb_true_iff, Hu, IHl. split.
      * intros [-> E]. injection E as ->. reflexivity.
      * intros E. injection E as -> ->. split; reflexivity.
Qed.

(** On a reference that is not [null], [_.isEqual] against a nullable value
    holds exactly when that value is the same tree. *)
Lemma isEqual_opt_some (r : Json) (o : option Json) :
  r <> JNull ->
  Underscore.isEqual_opt (Some r) o = true <-> o = Some r.
Proof.
  intros Hr. unfold Underscore.isEqual_opt. rewrite isEqual_eq.
  destruct o as [y|]; split; intros H; try congruence.
Qed.

(** ** Column-setting lookup *)

Section Lookup.

Context {L : MetabaseLib}.

Lemma nullish_false (o : option Json) :
  JS.nullish o = false <-> exists r, o = Some r /\ r <> JNull.
Proof.
  destruct o as [[]|]; simpl; split;
    try discriminate;
    try (intros (r & E & N); congruence);
    try (intros _; eexists; split; [reflexivity|discriminate]).
Qed.

(** C3: [findColumnIndexForColumnSetting] first matches by normalized field
    reference: when the setting's reference normalizes to a value [r] that is
    not null and [k] is the first column whose own normalized reference
    (taken without the columns array) is [r], the result is [k], whatever
    the names are.  When the reference normalizes to null, or no column has
    that normalized reference, the result is the first column whose name is
    the setting's name, and [-1] when there is none. *)
Theorem findColumnIndexForColumnSetting_spec :
  forall (columns : list Column) (columnSetting : ColumnSetting),
    let by_ref (r : Json) (col : Column) :=
      normalizeFieldRef (fieldRefForColumn col None) = Some r in
    let by_name (col : Column) := name col = cs_name columnSetting in
    let no_ref_match :=
      JS.nullish (normalizeFieldRef (cs_fieldRef columnSetting)) = true
      \/ exists r, normalizeFieldRef (cs_fieldRef columnSetting) = Some r
                   /\ forall col, In col columns -> ~ by_ref r col in
    (forall r k,
        normalizeFieldRef (cs_fieldRef columnSetting) = Some r ->
        r <> JNull ->
        first_at (by_ref r) columns k ->
        findColumnIndexForColumnSetting columns columnSetting = Z.of_nat k)
    /\ (forall k,
           no_ref_match ->
           first_at by_name columns k ->
           findColumnIndexForColumnSetting columns columnSetting = Z.of_nat k)
    /\ (no_ref_match ->
        (forall col, In col columns -> ~ by_name col) ->
        findColumnIndexForColumnSetting columns columnSetting = (-1)%Z).
Proof.
  intros columns columnSetting by_ref by_name no_ref_match.
  assert (Hname : forall col,
             String.eqb (name col) (cs_name columnSetting) = true <-> by_name col)
    by (intros col; apply String.eqb_eq).
  assert (Hfall : no_ref_match ->
            findColumnIndexForColumnSetting columns columnSetting
            = Underscore.findIndex
                (fun col => String.eqb (name col) (cs_name columnSetting)) columns).
  { unfold findColumnIndexForColumnSetting. cbv zeta.
    intros [Hnull | (r & Hr & Hno)].
    - rewrite Hnull. reflexivity.
    - destruct (JS.nullish _) eqn:Hn; [reflexivity|]. simpl negb. cbv iota.
      apply nullish_false in Hn. destruct Hn as (r' & Hr' & Hnn).
      assert (r' = r) by congruence; subst r'.
      rewrite Hr.
      match goal with
      | |- context [(Underscore.findIndex ?f columns >=? 0)%Z] =>
          rewrite (findIndex_none f (by_ref r)
                     (fun col => isEqual_opt_some r _ Hnn) columns Hno)
      end.
      reflexivity. }
  repeat split.
  - intros r k Hr Hnn Hk. unfold findColumnIndexForColumnSetting. cbv zeta.
    rewrite Hr.
    replace (JS.nullish (Some r)) with false
      by (symmetry; apply nullish_false; eauto).
    simpl negb. cbv iota.
    match goal with
    | |- context [(Underscore.findIndex ?f columns >=? 0)%Z] =>
        rewrite (findIndex_found f (by_ref r)
                   (fun col => isEqual_opt_some r _ Hnn) columns k Hk)
    end.
    replace (Z.of_nat k >=? 0)%Z with true by (symmetry; apply Z.geb_le; lia).
    reflexivity.
  - intros k Hno Hk. rewrite (Hfall Hno).
    apply (findIndex_found _ by_name Hname columns k Hk).
  - intros Hno Hnone. rewrite (Hfall Hno).
    apply (findIndex_none _ by_name Hname columns Hnone).
Qed.

(** How the index answered by [findColumnIndexForColumnSetting] was found. *)
Lemma findColumnIndexForColumnSetting_cases (columns : list Column)
  (cs : ColumnSetting) :
  let by_name (col : Column) := name col = cs_name cs in
  let by_ref (col : Column) :=
    exists r, normalizeFieldRef (cs_fieldRef cs) = Some r /\ r <> JNull
              /\ normalizeFieldRef (fieldRefForColumn col None) = Some r in
  (exists k, findColumnIndexForColumnSetting columns cs = Z.of_nat k
             /\ first_at by_ref columns k)
  \/ ((forall col, In col columns -> ~ by_ref col)
      /\ ((exists k, findColumnIndexForColumnSetting columns cs = Z.of_nat k
                     /\ first_at by_name columns k)
          \/ (findColumnIndexForColumnSetting columns cs = (-1)%Z
              /\ forall col, In col columns -> ~ by_name col))).
Proof.
  intros by_name by_ref.
  assert (Hname : forall col,
             String.eqb (name col) (cs_name cs) = true <-> by_name col)
    by (intros col; apply String.eqb_eq).
  assert (Hfall :
            (exists k, Underscore.findIndex
                         (fun col => String.eqb (name col) (cs_name cs)) columns
                       = Z.of_nat k /\ first_at by_name columns k)
            \/ (Underscore.findIndex
                  (fun col => String.eqb (name col) (cs_name cs)) columns = (-1)%Z
                /\ forall col, In col columns -> ~ by_name col)).
  { destruct (findIndex_cases _ by_name Hname columns) as [H | H];
      [right|left]; exact H. }
  unfold findColumnIndexForColumnSetting. cbv zeta.
  destruct (JS.nullish (normalizeFieldRef (cs_fieldRef cs))) eqn:Hn.
  - right. split; [|exact Hfall].
    intros col _ (r & Hr & Hnn & _). rewrite Hr in Hn.
    assert (JS.nullish (Some r) = false) by (apply nullish_false; eauto).
    congruence.
  - apply nullish_false in Hn. destruct Hn as (r & Hr & Hnn). rewrite Hr.
    simpl negb. cbv iota.
    assert (Href : forall col,
               Underscore.isEqual_opt (Some r)
                 (normalizeFieldRef (fieldRefForColumn col None)) = true
               <-> by_ref col).
    { intros col. rewrite (isEqual_opt_some r _ Hnn). split.
      - intros E. exists r. auto.
      - intros (r' & Hr' & _ & E). congruence. }
    match goal with
    | |- context [(Underscore.findIndex ?f columns >=? 0)%Z] =>
        destruct (findIndex_cases f by_ref Href columns) as [[E N] | (k & E & Hk)];
          rewrite E
    end.
    + right. split; [exact N|exact Hfall].
    + left. exists k.
      replace (Z.of_nat k >=? 0)%Z with true by (symmetry; apply Z.geb_le; lia).
      split; [reflexivity|exact Hk].
Qed.

End Lookup.

Lemma findColumnIndexForColumnSetting_spec_witness :
  findColumnIndexForColumnSetting [Sample.id_col; Sample.name_col]
    (Sample.setting "ID" (Some (JArr [JStr "fk->"; JNum 7; JNum 2])) true) = 1%Z
  /\ findColumnIndexForColumnSetting [Sample.id_col; Sample.name_col]
       (Sample.setting "NAME" (Some (JStr "?")) true) = 1%Z
  /\ findColumnIndexForColumnSetting [Sample.id_col; Sample.name_col]
       (Sample.setting "TOTAL" None true) = (-1)%Z.
Proof.
  split; [|split].
  - apply (proj1 (@findColumnIndexForColumnSetting_spec Sample.lib
                    [Sample.id_col; Sample.name_col]
                    (Sample.setting "ID" (Some (JArr [JStr "fk->"; JNum 7; JNum 2])) true))
             (JArr [JStr "field-id"; JNum 2]) 1%nat).
    + reflexivity.
    + discriminate.
    + exists Sample.name_col. split; [reflexivity|]. split; [reflexivity|].
      intros [|[|j]] y Hj Hy; [|lia|lia].
      injection Hy as <-. discriminate.
  - apply (proj1 (proj2 (@findColumnIndexForColumnSetting_spec Sample.lib
                           [Sample.id_col; Sample.name_col]
                           (Sample.setting "NAME" (Some (JStr "?")) true))) 1%nat).
    + left. reflexivity.
    + exists Sample.name_col. split; [reflexivity|]. split; [reflexivity|].
      intros [|[|j]] y Hj Hy; [|lia|lia].
      injection Hy as <-. discriminate.
  - apply (proj2 (proj2 (@findColumnIndexForColumnSetting_spec Sample.lib
                           [Sample.id_col; Sample.name_col]
                           (Sample.setting "TOTAL" None true)))).
    + left. reflexivity.
    + intros col [<-|[<-|[]]]; discriminate.
Defined.

(** ** Settings reconciliation *)

Section Sync.

Context {L : MetabaseLib}.

(** Looking a name up through [_.findIndex] and indexing the dimensions
    agrees with the baseline dimension of that name, as long as every name
    has its dimension. *)
Lemma findIndex_baseline (n : string) (names : list string)
  (dims : list Dimension) (i : Z) :
  (List.length names <= List.length dims)%nat ->
  match baseline_dimension names dims n with
  | Some d =>
      exists k, Underscore.findIndex_from (fun x => String.eqb x n) names i
                = (i + Z.of_nat k)%Z
                /\ nth_error dims k = Some d
  | None =>
      Underscore.findIndex_from (fun x => String.eqb x n) names i = (-1)%Z
  end.
Proof.
  unfold baseline_dimension.
  revert dims i. induction names as [|x names IH]; intros dims i Hlen.
  - reflexivity.
  - destruct dims as [|d dims]; [simpl in Hlen; lia|].
    simpl. destruct (String.eqb x n) eqn:Hx.
    + exists 0%nat. split; [lia|reflexivity].
    + specialize (IH dims (i + 1)%Z ltac:(simpl in Hlen; lia)).
      destruct (find _ (combine names dims)) as [[y d']|]; simpl in *.
      * destruct IH as (k & E & Hk). exists (S k). split; [lia|exact Hk].
      * exact IH.
Qed.

Lemma sync_setting_by_name_eq (dims : list Dimension) (names : list string)
  (q : StructuredQuery) (cs : ColumnSetting) :
  (List.length names <= List.length dims)%nat ->
  sync_setting_by_name dims names q cs
  = match (if JS.truthy_string (cs_name cs)
           then option_map mbql (baseline_dimension names dims (cs_name cs))
           else None) with
    | Some r => (Returned (addField q r), [])
    | None => (Returned q, [cs])
    end.
Proof.
  intros Hlen. unfold sync_setting_by_name.
  destruct (JS.truthy_string (cs_name cs)); [|reflexivity].
  cbv zeta. unfold Underscore.findIndex.
  pose proof (findIndex_baseline (cs_name cs) names dims 0 Hlen) as H.
  destruct (baseline_dimension names dims (cs_name cs)) as [d|]; simpl option_map.
  - destruct H as (k & E & Hk). rewrite E.
    replace (0 + Z.of_nat k >=? 0)%Z with true by (symmetry; apply Z.geb_le; lia).
    replace (Z.to_nat (0 + Z.of_nat k)) with k by lia.
    rewrite Hk. reflexivity.
  - rewrite H. reflexivity.
Qed.

Lemma sync_setting_eq (dims : list Dimension) (names : list string)
  (q : StructuredQuery) (cs : ColumnSetting) :
  (List.length names <= List.length dims)%nat ->
  sync_setting dims names q cs
  = (Returned (fold_left addField (explicit_fields dims names [cs]) q),
     if unresolved dims names cs then [cs] else []).
Proof.
  intros Hlen. unfold sync_setting, explicit_fields, unresolved, setting_field.
  simpl flat_map. rewrite app_nil_r.
  destruct (cs_enabled cs); [|reflexivity]. simpl andb.
  destruct (cs_fieldRef cs) as [r|]; simpl JS.truthy_opt.
  - destruct (JS.truthy r); [reflexivity|].
    rewrite (sync_setting_by_name_eq dims names q cs Hlen).
    destruct (if JS.truthy_string (cs_name cs) then _ else _); reflexivity.
  - rewrite (sync_setting_by_name_eq dims names q cs Hlen).
    destruct (if JS.truthy_string (cs_name cs) then _ else _); reflexivity.
Qed.

Lemma explicit_fields_cons (dims : list Dimension) (names : list string)
  (cs : ColumnSetting) (settings : list ColumnSetting) :
  explicit_fields dims names (cs :: settings)
  = explicit_fields dims names [cs] ++ explicit_fields dims names settings.
Proof. unfold explicit_fields. simpl flat_map. rewrite app_nil_r. reflexivity. Qed.

(** The loop over the settings never throws: it adds the explicit fields in
    order and warns about each unresolved setting. *)
Lemma for_of_sync_setting (dims : list Dimension) (names : list string)
  (settings : list ColumnSetting) (q : StructuredQuery) :
  (List.length names <= List.length dims)%nat ->
  for_of settings (sync_setting dims names) q
  = (Returned (fold_left addField (explicit_fields dims names settings) q),
     filter (unresolved dims names) settings).
Proof.
  intros Hlen. revert q. induction settings as [|cs settings IH]; intros q.
  - reflexivity.
  - simpl for_of. rewrite (sync_setting_eq dims names q cs Hlen).
    unfold bind. rewrite IH.
    rewrite (explicit_fields_cons dims names cs settings), fold_left_app.
    simpl filter. destruct (unresolved dims names cs); reflexivity.
Qed.

Lemma all_from_true {A} (p : A -> nat -> bool) (l : list A) (i : nat) :
  Underscore.all_from p l i = true
  <-> forall j x, nth_error l j = Some x -> p x (i + j)%nat = true.
Proof.
  revert i. induction l as [|y l IH]; intros i; simpl.
  - split; [|reflexivity]. intros _ [|j] x; discriminate.
  - rewrite andb_true_iff, IH. split.
    + intros [Hy Hl] [|j] x Hx; simpl in Hx.
      * injection Hx as <-. rewrite Nat.add_0_r. exact Hy.
      * replace (i + S j)%nat with (S i + j)%nat by lia. apply Hl, Hx.
    + intros H. split.
      * specialize (H 0%nat y eq_refl). rewrite Nat.add_0_r in H. exact H.
      * intros j x Hx. specialize (H (S j) x Hx).
        replace (i + S j)%nat with (S i + j)%nat in H by lia. exact H.
Qed.

(** The test guarding the collapse is the position-wise comparison of the
    two dimension lists. *)
Lemma collapse_test_iff (baseline new : list Dimension) :
  Nat.eqb (List.length baseline) (List.length new)
  && Underscore.all (fun d i => isSameBaseDimension d (nth_error new i)) baseline
  = true
  <-> same_columns baseline new.
Proof.
  unfold same_columns, Underscore.all.
  rewrite andb_true_iff, Nat.eqb_eq, all_from_true. simpl Nat.add.
  split; intros [Hlen H]; (split; [exact Hlen|]).
  - intros i d d' Hd Hd'. rewrite <- Hd'. apply H, Hd.
  - intros j d Hd.
    destruct (nth_error new j) as [d'|] eqn:Hd'.
    + apply (H j d d' Hd Hd').
    + exfalso. apply nth_error_None in Hd'.
      assert (j < List.length baseline)%nat by (apply nth_error_Some; congruence).
      lia.
Qed.

(** On entries that are all setting objects the loop is the loop over the
    settings. *)
Lemma for_of_entries (dims : list Dimension) (names : list string)
  (settings : list ColumnSetting) (q : StructuredQuery) :
  for_of (map Some settings) (sync_entry dims names) q
  = for_of settings (sync_setting dims names) q.
Proof.
  revert q. induction settings as [|cs settings IH]; intros q; simpl.
  - reflexivity.
  - destruct (sync_setting dims names q cs) as [[q'|e] w]; unfold bind;
      [rewrite IH|]; reflexivity.
Qed.

(** What the function computes on a structured query with settings. *)
Lemma syncTableColumnsToQuery_structured (q : Question)
  (settings : list ColumnSetting) (sq : StructuredQuery) :
  table_columns q = Some (map Some settings) ->
  query q = IsStructured sq ->
  (List.length (columnNames (clearFields sq))
   <= List.length (columnDimensions (clearFields sq)))%nat ->
  let baseline := columnDimensions (clearFields sq) in
  let names := columnNames (clearFields sq) in
  let built :=
    fold_left addField (explicit_fields baseline names settings) (clearFields sq) in
  syncTableColumnsToQuery q
  = (Returned
       (if Nat.eqb (List.length baseline) (List.length (columnDimensions built))
           && Underscore.all
                (fun d i => isSameBaseDimension d (nth_error (columnDimensions built) i))
                baseline
        then question (clearFields built)
        else question built),
     filter (unresolved baseline names) settings).
Proof.
  intros Hs Hq Hlen baseline names built.
  unfold syncTableColumnsToQuery. rewrite Hs, Hq. cbv zeta.
  rewrite for_of_entries, for_of_sync_setting by exact Hlen.
  unfold bind. fold baseline names built.
  destruct (_ && _); simpl; rewrite app_nil_r; reflexivity.
Qed.

Lemma syncTableColumnsToQuery_not_applicable (q : Question) :
  table_columns q = None \/ (exists o, query q = NotStructured o) ->
  syncTableColumnsToQuery q = (Returned q, []).
Proof.
  intros [Hs | [o Ho]]; unfold syncTableColumnsToQuery.
  - rewrite Hs. reflexivity.
  - rewrite Ho. destruct (table_columns q); reflexivity.
Qed.

(** C6: when the question's query is not a structured query, or there is no
    [table.columns] setting, [syncTableColumnsToQuery] returns the question it
    was given, and nothing is logged. *)
Theorem syncTableColumnsToQuery_unchanged :
  forall (q : Question),
    table_columns q = None \/ (exists o, query q = NotStructured o) ->
    syncTableColumnsToQuery q = (Returned q, []).
Proof.
  intros q H. apply syncTableColumnsToQuery_not_applicable, H.
Qed.

(** C1: on a structured query with a [table.columns] setting, let [built] be
    the cleared query to which the enabled settings' fields were added.  If
    its column dimensions are as many as the baseline's and each is the same
    base dimension as the baseline one at its position, the function returns
    the question of [built] with its fields cleared again; otherwise it
    returns the question of [built], the explicit list applied. *)
Theorem syncTableColumnsToQuery_collapse :
  forall (q : Question) (settings : list ColumnSetting) (sq : StructuredQuery),
    table_columns q = Some (map Some settings) ->
    query q = IsStructured sq ->
    (List.length (columnNames (clearFields sq))
     <= List.length (columnDimensions (clearFields sq)))%nat ->
    let baseline := columnDimensions (clearFields sq) in
    let names := columnNames (clearFields sq) in
    let built :=
      fold_left addField (explicit_fields baseline names settings) (clearFields sq) in
    (same_columns baseline (columnDimensions built) ->
     fst (syncTableColumnsToQuery q) = Returned (question (clearFields built)))
    /\ (~ same_columns baseline (columnDimensions built) ->
        fst (syncTableColumnsToQuery q) = Returned (question built)).
Proof.
  intros q settings sq Hs Hq Hlen baseline names built.
  rewrite (syncTableColumnsToQuery_structured q settings sq Hs Hq Hlen).
  fold baseline names built. simpl fst.
  pose proof (collapse_test_iff baseline (columnDimensions built)) as Hc.
  destruct (_ && _).
  - split; [reflexivity|]. intros Hn. exfalso. apply Hn, Hc. reflexivity.
  - split; [|reflexivity]. intros Hy. apply Hc in Hy. discriminate.
Qed.

End Sync.

Lemma syncTableColumnsToQuery_unchanged_witness :
  syncTableColumnsToQuery (Sample.native_question (Some Sample.all_shown))
  = (Returned (Sample.native_question (Some Sample.all_shown)), [])
  /\ syncTableColumnsToQuery (Sample.question_with [JNum 2] None)
     = (Returned (Sample.question_with [JNum 2] None), []).
Proof.
  split.
  - apply (@syncTableColumnsToQuery_unchanged Sample.lib).
    right. exists "SELECT 1". reflexivity.
  - apply (@syncTableColumnsToQuery_unchanged Sample.lib).
    left. reflexivity.
Defined.

Lemma syncTableColumnsToQuery_collapse_witness :
  fst (syncTableColumnsToQuery
         (Sample.question_with [JNum 2] (Some Sample.all_shown)))
  = Returned (Sample.question_with [] (Some Sample.all_shown))
  /\ fst (syncTableColumnsToQuery
            (Sample.question_with [JNum 2] (Some Sample.name_hidden)))
     = Returned
         (Sample.question_with
            [JArr [JStr "field-id"; JNum 1]; JArr [JStr "field-id"; JNum 3]]
            (Some Sample.name_hidden)).
Proof.
  split.
  - apply (proj1 (@syncTableColumnsToQuery_collapse Sample.lib
                    (Sample.question_with [JNum 2] (Some Sample.all_shown))
                    Sample.all_shown
                    (Sample.structured [JNum 2] (Some Sample.all_shown))
                    eq_refl eq_refl (le_n 3))).
    split; [reflexivity|].
    intros [|[|[|[|i]]]] d d' Hd Hd'; vm_compute in Hd, Hd'; try discriminate;
      injection Hd as <-; injection Hd' as <-; reflexivity.
  - apply (proj2 (@syncTableColumnsToQuery_collapse Sample.lib
                    (Sample.question_with [JNum 2] (Some Sample.name_hidden))
                    Sample.name_hidden
                    (Sample.structured [JNum 2] (Some Sample.name_hidden))
                    eq_refl eq_refl (le_n 3))).
    intros [Hlen _]. discriminate Hlen.
Defined.

(** ** Error handling *)

Section ErrorHandling.

Context {L : MetabaseLib}.

Lemma findIndex_range {A} (p : A -> bool) (l : list A) :
  Underscore.findIndex p l = (-1)%Z
  \/ exists k x, Underscore.findIndex p l = Z.of_nat k /\ nth_error l k = Some x.
Proof.
  destruct (findIndex_cases p (fun x => p x = true) (fun x => iff_refl _) l)
    as [[E _] | (k & E & x & Hx & _)].
  - left; exact E.
  - right; exists k, x; split; assumption.
Qed.

Lemma findColumnIndexForColumnSetting_range (columns : list Column)
  (cs : ColumnSetting) :
  findColumnIndexForColumnSetting columns cs = (-1)%Z
  \/ exists k col, findColumnIndexForColumnSetting columns cs = Z.of_nat k
                   /\ nth_error columns k = Some col.
Proof.
  unfold findColumnIndexForColumnSetting. cbv zeta.
  destruct (negb _).
  - match goal with
    | |- context [(Underscore.findIndex ?f columns >=? 0)%Z] =>
        destruct (findIndex_range f columns) as [E | (k & x & E & Hx)]; rewrite E
    end.
    + simpl. apply findIndex_range.
    + replace (Z.of_nat k >=? 0)%Z with true by (symmetry; apply Z.geb_le; lia).
      right; exists k, x; split; [reflexivity|exact Hx].
  - apply findIndex_range.
Qed.

Lemma explicit_fields_skip (dims : list Dimension) (names : list string)
  (before after : list ColumnSetting) (cs : ColumnSetting) :
  unresolved dims names cs = true ->
  explicit_fields dims names (before ++ cs :: after)
  = explicit_fields dims names (before ++ after).
Proof.
  intros Hu. unfold explicit_fields. rewrite !flat_map_app. simpl flat_map.
  unfold unresolved in Hu. apply andb_true_iff in Hu. destruct Hu as [He Hn].
  rewrite He. destruct (setting_field dims names cs); [discriminate|reflexivity].
Qed.

(** C9, amended: on settings that are setting objects, an unresolvable
    setting raises no error.  [fieldRefForColumn] answers [null] exactly
    when no branch applies.  [findColumnIndexForColumnSetting] answers [-1],
    and [findColumnForColumnSetting] [null], exactly when no column has the
    setting's normalized reference or its name; any other answer is the
    index of a column of the array that matches the setting, and that
    column.  [syncTableColumnsToQuery] returns a question, having warned
    about each enabled setting it could not resolve, as long as the cleared
    query has a dimension for each of its column names; and in its loop such
    a setting is logged and leaves the query being built as it was. *)
Theorem unresolvable_settings_do_not_raise :
  (forall (column : Column) (columns : option (list Column)),
      fieldRefForColumn column columns = None
      <-> id column = None /\ expression_name column = None
          /\ (is_aggregation column = false
              \/ columns = None
              \/ exists cols, columns = Some cols
                              /\ forall c, In c (filter is_aggregation cols) ->
                                           oid c <> oid column))
  /\ (forall (columns : list Column) (cs : ColumnSetting),
         let by_ref (col : Column) :=
           exists r, normalizeFieldRef (cs_fieldRef cs) = Some r /\ r <> JNull
                     /\ normalizeFieldRef (fieldRefForColumn col None) = Some r in
         let no_match :=
           forall col, In col columns ->
                       ~ by_ref col /\ name col <> cs_name cs in
         (findColumnIndexForColumnSetting columns cs = (-1)%Z <-> no_match)
         /\ (findColumnForColumnSetting columns cs = None <-> no_match)
         /\ (findColumnIndexForColumnSetting columns cs = (-1)%Z
             \/ exists k col,
                  findColumnIndexForColumnSetting columns cs = Z.of_nat k
                  /\ nth_error columns k = Some col
                  /\ findColumnForColumnSetting columns cs = Some col
                  /\ (by_ref col \/ name col = cs_name cs)))
  /\ (forall (q : Question),
         table_columns q = None
         \/ (exists settings, table_columns q = Some (map Some settings)) ->
         (forall sq, query q = IsStructured sq ->
                     (List.length (columnNames (clearFields sq))
                      <= List.length (columnDimensions (clearFields sq)))%nat) ->
         exists q' log,
           syncTableColumnsToQuery q = (Returned q', log)
           /\ forall settings sq,
                table_columns q = Some (map Some settings) ->
                query q = IsStructured sq ->
                log = filter (unresolved (columnDimensions (clearFields sq))
                                (columnNames (clearFields sq))) settings)
  /\ (forall (dims : list Dimension) (names : list string)
             (before after : list ColumnSetting) (cs : ColumnSetting)
             (q0 : StructuredQuery),
         (List.length names <= List.length dims)%nat ->
         unresolved dims names cs = true ->
         exists q1 log1 log2,
           for_of (before ++ after) (sync_setting dims names) q0
           = (Returned q1, log1 ++ log2)
           /\ for_of (before ++ cs :: after) (sync_setting dims names) q0
              = (Returned q1, log1 ++ cs :: log2)).
Proof.
  split; [|split; [|split]].
  - intros column columns. unfold fieldRefForColumn.
    destruct (id column) as [[n|r]|].
    + destruct (fk_field_id column); split;
        [discriminate | intros (H & _); discriminate
        | discriminate | intros (H & _); discriminate].
    + split; [discriminate | intros (H & _); discriminate].
    + destruct (expression_name column) as [e|].
      * split; [discriminate | intros (_ & H & _); discriminate].
      * destruct (is_aggregation column) eqn:Hagg.
        -- destruct columns as [cols|].
           ++ unfold indexOf.
              destruct (findIndex_cases _ _ (fun c => same_object_iff c column)
                          (filter is_aggregation cols))
                as [[E N] | (k & E & x & Hx & HP & _)]; rewrite E.
              ** split; [|reflexivity]. intros _.
                 repeat split. right; right. exists cols. split; [reflexivity|exact N].
              ** replace (Z.of_nat k >=? 0)%Z with true
                   by (symmetry; apply Z.geb_le; lia).
                 split; [discriminate|].
                 intros (_ & _ & [H | [H | (cols' & H & N)]]); try discriminate.
                 injection H as <-. exfalso. apply (N x); [|exact HP].
                 apply nth_error_In with k. exact Hx.
           ++ split; [|reflexivity]. intros _. repeat split. right; left; reflexivity.
        -- split; [|reflexivity]. intros _. repeat split. left; reflexivity.
  - intros columns cs by_ref no_match.
    unfold findColumnForColumnSetting. cbv zeta.
    destruct (findColumnIndexForColumnSetting_cases columns cs)
      as [(k & E & x & Hx & HP & _)
         | (Nref & [(k & E & x & Hx & HP & _) | (E & Nname)])];
      rewrite E.
    + replace (Z.of_nat k >=? 0)%Z with true by (symmetry; apply Z.geb_le; lia).
      rewrite Nat2Z.id, Hx.
      assert (Hno : ~ no_match).
      { intros H. apply (proj1 (H x (nth_error_In _ _ Hx))). exact HP. }
      split; [|split].
      * split; [lia|]. intros H. exfalso. exact (Hno H).
      * split; [discriminate|]. intros H. exfalso. exact (Hno H).
      * right. exists k, x. repeat split; auto.
    + replace (Z.of_nat k >=? 0)%Z with true by (symmetry; apply Z.geb_le; lia).
      rewrite Nat2Z.id, Hx.
      assert (Hno : ~ no_match).
      { intros H. apply (proj2 (H x (nth_error_In _ _ Hx))). exact HP. }
      split; [|split].
      * split; [lia|]. intros H. exfalso. exact (Hno H).
      * split; [discriminate|]. intros H. exfalso. exact (Hno H).
      * right. exists k, x. repeat split; auto.
    + assert (Hyes : no_match).
      { intros col Hin. split; [apply Nref, Hin|apply Nname, Hin]. }
      split; [|split].
      * split; [intros _; exact Hyes|reflexivity].
      * split; [intros _; exact Hyes|reflexivity].
      * left. reflexivity.
  - intros q Hwf Hlen.
    destruct Hwf as [Hs | [settings Hs]].
    + exists q, []. split.
      * apply syncTableColumnsToQuery_not_applicable. left; exact Hs.
      * intros settings' sq' E1. rewrite Hs in E1. discriminate E1.
    + destruct (query q) as [sq|o] eqn:Hq.
      * rewrite (syncTableColumnsToQuery_structured q settings sq Hs Hq (Hlen sq eq_refl)).
        eexists; eexists; split; [reflexivity|].
        intros settings' sq' E1 E2. rewrite Hs in E1.
        injection E1 as E1. injection E2 as <-.
        assert (settings' = settings).
        { clear - E1. revert settings' E1.
          induction settings as [|c l IH]; intros [|c' l'] E; simpl in E;
            try discriminate; [reflexivity|].
          injection E as -> E. rewrite (IH l' E). reflexivity. }
        subst settings'. reflexivity.
      * exists q, []. split.
        -- apply syncTableColumnsToQuery_not_applicable. right; exists o; exact Hq.
        -- intros settings' sq' _ E. discriminate E.
  - intros dims names before after cs q0 Hlen Hu.
    exists (fold_left addField (explicit_fields dims names (before ++ after)) q0),
      (filter (unresolved dims names) before),
      (filter (unresolved dims names) after).
    rewrite !for_of_sync_setting by exact Hlen.
    rewrite (explicit_fields_skip dims names before after cs Hu).
    rewrite !filter_app. simpl filter. rewrite Hu. split; reflexivity.
Qed.

End ErrorHandling.

(** ** [JSON.stringify] can be read back *)

Section Stringify.

Import JSON.
Local Open Scope string_scope.

Lemma append_assoc (a b c : string) : (a ++ b) ++ c = a ++ (b ++ c).
Proof. induction a as [|x a IH]; simpl; [reflexivity|]. rewrite IH. reflexivity. Qed.

Lemma append_cons (c : ascii) (a b : string) :
  String c a ++ b = String c (a ++ b).
Proof. reflexivity. Qed.

Lemma unescape_escape (c : ascii) (r : string) :
  unescape_char (escape_char c ++ r) = Some (c, r).
Proof.
  destruct c as [[] [] [] [] [] [] [] []]; reflexivity.
Qed.

Lemma unescape_dquote (r : string) : unescape_char (String dquote r) = None.
Proof. reflexivity. Qed.

Lemma quote_body_inj (s1 s2 r1 r2 : string) :
  quote_body s1 ++ String dquote r1 = quote_body s2 ++ String dquote r2 ->
  s1 = s2 /\ r1 = r2.
Proof.
  revert s2. induction s1 as [|c1 s1 IH]; intros [|c2 s2] H; simpl in H.
  - injection H as ->. split; reflexivity.
  - apply (f_equal unescape_char) in H.
    rewrite append_assoc, unescape_escape, unescape_dquote in H. discriminate.
  - apply (f_equal unescape_char) in H.
    rewrite append_assoc, unescape_escape, unescape_dquote in H. discriminate.
  - apply (f_equal unescape_char) in H.
    rewrite !append_assoc, !unescape_escape in H.
    injection H as -> H. destruct (IH s2 H) as [-> ->]. split; reflexivity.
Qed.

(** *** Numbers *)

Lemma uint_chars (d : Decimal.uint) :
  all_chars is_num_char (DecimalString.NilEmpty.string_of_uint d) = true.
Proof. induction d; simpl; auto. Qed.

Lemma to_uint_nonnil (p : positive) : Pos.to_uint p <> Decimal.Nil.
Proof.
  intros H. pose proof (DecimalPos.Unsigned.of_to p) as E.
  rewrite H in E. discriminate E.
Qed.

Lemma to_int_nonnil (n : Z) :
  Z.to_int n <> Decimal.Pos Decimal.Nil /\ Z.to_int n <> Decimal.Neg Decimal.Nil.
Proof.
  destruct n as [|p|p]; simpl; split; try discriminate;
    intros H; injection H as H; apply (to_uint_nonnil p H).
Qed.

Lemma digits_inj (a b : Z) : digits a = digits b -> a = b.
Proof.
  unfold digits. intros H.
  apply (f_equal DecimalString.NilZero.int_of_string) in H.
  destruct (to_int_nonnil a) as [Ha1 Ha2]. destruct (to_int_nonnil b) as [Hb1 Hb2].
  rewrite !DecimalString.NilZero.isi in H by assumption.
  injection H as H. apply DecimalZ.to_int_inj, H.
Qed.

Lemma digits_chars (n : Z) :
  exists c s, digits n = String c s
              /\ is_num_char c = true /\ all_chars is_num_char s = true.
Proof.
  unfold digits.
  assert (U : forall d, exists c s,
             DecimalString.NilZero.string_of_uint d = String c s
             /\ is_num_char c = true /\ all_chars is_num_char s = true).
  { intros d. pose proof (uint_chars d) as H.
    destruct d; simpl in *;
      try (eexists; eexists; split; [reflexivity|split; [reflexivity|exact H]]). }
  destruct (Z.to_int n) as [d|d]; simpl.
  - apply U.
  - destruct (U d) as (c & s & E & Hc & Hs).
    exists "-"%char, (DecimalString.NilZero.string_of_uint d).
    split; [reflexivity|]. split; [reflexivity|]. rewrite E. simpl.
    rewrite Hc, Hs. reflexivity.
Qed.

Lemma closes_not_num (r : string) :
  closes r -> match r with "" => True | String c _ => is_num_char c = false end.
Proof. destruct r as [|c r]; simpl; [trivial|]. intros [-> | ->]; reflexivity. Qed.

(** Two runs of number characters, each followed by a text that starts with
    none, are equal when the whole texts are. *)
Lemma num_run_inj (s1 s2 r1 r2 : string) :
  all_chars is_num_char s1 = true ->
  all_chars is_num_char s2 = true ->
  closes r1 -> closes r2 ->
  s1 ++ r1 = s2 ++ r2 -> s1 = s2 /\ r1 = r2.
Proof.
  revert s2. induction s1 as [|c1 s1 IH]; intros [|c2 s2] H1 H2 C1 C2 H; simpl in *.
  - split; [reflexivity|exact H].
  - subst r1. apply closes_not_num in C1. simpl in C1.
    apply andb_true_iff in H2. destruct H2 as [H2 _]. congruence.
  - subst r2. apply closes_not_num in C2. simpl in C2.
    apply andb_true_iff in H1. destruct H1 as [H1 _]. congruence.
  - injection H as -> H.
    apply andb_true_iff in H1. apply andb_true_iff in H2.
    destruct (IH s2 (proj2 H1) (proj2 H2) C1 C2 H) as [-> ->].
    split; reflexivity.
Qed.

(** *** Values *)

Context {E : Engine}.

(** A plain number is a safe integer, printed digit by digit whatever the
    engine. *)
Lemma plain_number (x : JsNumber) :
  plain (JNum x) = true ->
  exists n, x = Integer n /\ stringify (JNum x) = digits n.
Proof.
  destruct x as [n| | |]; simpl; try discriminate.
  intros H. exists n. rewrite H. split; reflexivity.
Qed.

Lemma head_kind_stringify (j : Json) (r : string) :
  plain j = true -> head_kind (stringify j ++ r) = kind j.
Proof.
  destruct j as [| [] | x | s | l]; try reflexivity.
  intros Hp. destruct (plain_number x Hp) as (n & -> & ->).
  destruct (digits_chars n) as (c & t & Ed & Hc & _). rewrite Ed.
  simpl. rewrite Hc.
  destruct (Ascii.eqb_spec c "n") as [->|_]; [discriminate Hc|].
  destruct (Ascii.eqb_spec c "t") as [->|_]; [discriminate Hc|].
  destruct (Ascii.eqb_spec c "f") as [->|_]; [discriminate Hc|].
  reflexivity.
Qed.

Lemma elements_closes (l : list Json) (r : string) : closes (elements_tail l r).
Proof. destruct l; simpl; [right|left]; reflexivity. Qed.

Lemma concat_elements (x : Json) (l : list Json) (r : string) :
  concat "," (map stringify (x :: l)) ++ String "]" r
  = stringify x ++ elements_tail l r.
Proof.
  revert x. induction l as [|y l IH]; intros x.
  - reflexivity.
  - change (concat "," (map stringify (x :: y :: l)))
      with (stringify x ++ String "," (concat "," (map stringify (y :: l)))).
    rewrite append_assoc, append_cons, IH. reflexivity.
Qed.

Lemma stringify_array (l : list Json) (r : string) :
  stringify (JArr l) ++ r
  = match l with
    | [] => String "[" (String "]" r)
    | x :: l' => String "[" (stringify x ++ elements_tail l' r)
    end.
Proof.
  destruct l as [|x l]; [reflexivity|].
  rewrite <- concat_elements.
  change (stringify (JArr (x :: l)))
    with (String "[" (concat "," (map stringify (x :: l)) ++ String "]" "")).
  rewrite append_cons, append_assoc. reflexivity.
Qed.

Lemma elements_tail_inj (l : list Json) :
  Forall reads_back l ->
  forallb plain l = true ->
  forall m r1 r2,
    forallb plain m = true ->
    elements_tail l r1 = elements_tail m r2 -> l = m /\ r1 = r2.
Proof.
  induction 1 as [|x l Hx _ IH]; intros Pl [|y m] r1 r2 Pm H; simpl in H.
  - injection H as ->. split; reflexivity.
  - discriminate H.
  - discriminate H.
  - injection H as H. simpl in Pl, Pm.
    apply andb_true_iff in Pl. destruct Pl as [Px Pl].
    apply andb_true_iff in Pm. destruct Pm as [Py Pm].
    destruct (Hx Px y _ _ Py (elements_closes l r1) (elements_closes m r2) H)
      as [-> H'].
    destruct (IH Pl m r1 r2 Pm H') as [-> ->]. split; reflexivity.
Qed.

Lemma stringify_reads_back (a : Json) : reads_back a.
Proof.
  induction a as [| x | x | x | l IH] using Json_tree_ind;
    intros Pa b r1 r2 Pb C1 C2 H;
    pose proof (f_equal head_kind H) as K;
    rewrite !head_kind_stringify in K by assumption.
  - destruct b as [| [] | | |]; try discriminate K.
    simpl in H. injection H as ->. split; reflexivity.
  - destruct x, b as [| [] | | |]; try discriminate K;
      simpl in H; injection H as ->; split; reflexivity.
  - destruct b as [| [] | y | |]; try discriminate K.
    destruct (plain_number x Pa) as (n1 & -> & E1).
    destruct (plain_number y Pb) as (n2 & -> & E2).
    rewrite E1, E2 in H.
    destruct (digits_chars n1) as (c1 & s1 & D1 & Hc1 & Hs1).
    destruct (digits_chars n2) as (c2 & s2 & D2 & Hc2 & Hs2).
    destruct (num_run_inj (digits n1) (digits n2) r1 r2) as [Ed ->];
      try assumption.
    + rewrite D1. simpl. rewrite Hc1, Hs1. reflexivity.
    + rewrite D2. simpl. rewrite Hc2, Hs2. reflexivity.
    + apply digits_inj in Ed. subst n2. split; reflexivity.
  - destruct b as [| [] | | y |]; try discriminate K.
    simpl stringify in H. unfold quote in H. simpl in H.
    injection H as H. rewrite !append_assoc in H. simpl in H.
    destruct (quote_body_inj _ _ _ _ H) as [-> ->]. split; reflexivity.
  - destruct b as [| [] | | | m]; try discriminate K.
    rewrite !stringify_array in H. simpl in Pa, Pb.
    destruct l as [|x l], m as [|y m]; injection H as H.
    + subst r2. split; reflexivity.
    + exfalso. simpl in Pb. apply andb_true_iff in Pb. destruct Pb as [Py _].
      pose proof (f_equal head_kind H) as K'.
      rewrite (head_kind_stringify y _ Py) in K'.
      destruct y as [| [] | | |]; discriminate K'.
    + exfalso. simpl in Pa. apply andb_true_iff in Pa. destruct Pa as [Px _].
      pose proof (f_equal head_kind H) as K'.
      rewrite (head_kind_stringify x _ Px) in K'.
      destruct x as [| [] | | |]; discriminate K'.
    + inversion IH as [|? ? Hx Hl]; subst.
      simpl in Pa, Pb.
      apply andb_true_iff in Pa. destruct Pa as [Px Pl].
      apply andb_true_iff in Pb. destruct Pb as [Py Pm].
      destruct (Hx Px y _ _ Py (elements_closes l r1) (elements_closes m r2) H)
        as [-> H'].
      destruct (elements_tail_inj l Hl Pl m r1 r2 Pm H') as [-> ->].
      split; reflexivity.
Qed.

(** On plain values [JSON.stringify] is injective. *)
Lemma stringify_inj (a b : Json) :
  plain a = true -> plain b = true ->
  stringify a = stringify b -> a = b.
Proof.
  intros Pa Pb H.
  assert (Enil : forall s, s ++ "" = s)
    by (induction s as [|c s IH]; simpl; [|rewrite IH]; reflexivity).
  apply (stringify_reads_back a Pa b "" "" Pb I I). rewrite !Enil. exact H.
Qed.

End Stringify.

(** ** [keyForColumn] *)

Section Keys.

Context {E : Engine}.

Lemma fieldRefForColumn_array (column : Column) (columns : option (list Column))
  (r : FieldReference) :
  fieldRefForColumn column columns = Some r -> exists l, r = JArr l.
Proof.
  unfold fieldRefForColumn.
  destruct (id column) as [[n|l]|].
  - destruct (fk_field_id column); intros H; injection H as <-; eauto.
  - intros H; injection H as <-; eauto.
  - destruct (expression_name column).
    + intros H; injection H as <-; eauto.
    + destruct (is_aggregation column), columns as [cols|]; try discriminate.
      destruct (_ >=? _)%Z; [|discriminate].
      intros H; injection H as <-; eauto.
Qed.

Lemma keyForColumn_ref (column : Column) (r : FieldReference) :
  fieldRefForColumn column None = Some r ->
  keyForColumn column = JSON.stringify (JArr [JStr "ref"; r]).
Proof.
  intros H. unfold keyForColumn. rewrite H.
  destruct (fieldRefForColumn_array _ _ _ H) as [l ->]. reflexivity.
Qed.

Lemma keyForColumn_name (column : Column) :
  fieldRefForColumn column None = None ->
  keyForColumn column = JSON.stringify (JArr [JStr "name"; JStr (name column)]).
Proof. intros H. unfold keyForColumn. rewrite H. reflexivity. Qed.

Lemma plain_ref_key (r : FieldReference) :
  JSON.plain r = true -> JSON.plain (JArr [JStr "ref"; r]) = true.
Proof. intros H. simpl. rewrite H. reflexivity. Qed.


End Keys.



(** C9 as stated fails: on a [table.columns] array whose entry is [null],
    reading [columnSetting.enabled] raises a [TypeError]; the entry is not
    skipped. *)
Lemma syncTableColumnsToQuery_null_entry_counterexample :
  ~ (forall (L : MetabaseLib) (q : Question),
        exists q' log, syncTableColumnsToQuery q = (Returned q', log)).
Proof.
  intros H.
  destruct (H Sample.lib (Sample.question_with_entries [] (Some [None])))
    as (q' & log & E).
  vm_compute in E. discriminate E.
Qed.

Lemma unresolvable_settings_do_not_raise_witness :
  (exists q' log,
      syncTableColumnsToQuery
        (Sample.question_with [JNum 2] (Some Sample.name_hidden))
      = (Returned q', log)
      /\ log = [Sample.setting "DISCOUNT" None true])
  /\ findColumnForColumnSetting [Sample.id_col]
       (Sample.setting "DISCOUNT" None true) = None.
Proof.
  destruct (@unresolvable_settings_do_not_raise Sample.lib) as (_ & Hfind & Hsync & _).
  split.
  - destruct (Hsync (Sample.question_with [JNum 2] (Some Sample.name_hidden)))
      as (q' & log & E & Hlog).
    + right. exists Sample.name_hidden. reflexivity.
    + intros sq Hsq. injection Hsq as <-. exact (le_n 3).
    + exists q', log. split; [exact E|].
      rewrite (Hlog Sample.name_hidden _ eq_refl eq_refl). reflexivity.
  - apply (proj1 (proj2 (Hfind [Sample.id_col]
                           (Sample.setting "DISCOUNT" None true)))).
    intros col [<-|[]]. split.
    + intros (r & Hr & _). discriminate Hr.
    + discriminate.
Defined.

(** * Further properties of the module *)

(** ** Keys and references *)

Section KeyEquality.

Context {E : Engine}.

(** X1: for two columns whose field references (taken without the columns
    array) hold no number other than safe integers, the keys are the same
    exactly when the references are the same and, when there is none, the
    names are the same.  For such columns a key made from a reference never
    equals a key made from a name. *)
Theorem keyForColumn_eq_iff :
  forall (a b : Column),
    (forall r, fieldRefForColumn a None = Some r -> JSON.plain r = true) ->
    (forall r, fieldRefForColumn b None = Some r -> JSON.plain r = true) ->
    keyForColumn a = keyForColumn b
    <-> fieldRefForColumn a None = fieldRefForColumn b None
        /\ (fieldRefForColumn a None = None -> name a = name b).
Proof.
  intros a b Pa Pb.
  assert (Pn : forall n, JSON.plain (JArr [JStr "name"; JStr n]) = true)
    by reflexivity.
  destruct (fieldRefForColumn a None) as [ra|] eqn:Ha;
    destruct (fieldRefForColumn b None) as [rb|] eqn:Hb.
  - rewrite (keyForColumn_ref a ra Ha), (keyForColumn_ref b rb Hb). split.
    + intros H. apply stringify_inj in H; try (apply plain_ref_key; auto).
      injection H as ->. split; [reflexivity|discriminate].
    + intros [Eq _]. injection Eq as ->. reflexivity.
  - rewrite (keyForColumn_ref a ra Ha), (keyForColumn_name b Hb). split.
    + intros H. apply stringify_inj in H;
        [discriminate H | apply plain_ref_key; auto | apply Pn].
    + intros [Eq _]. discriminate Eq.
  - rewrite (keyForColumn_name a Ha), (keyForColumn_ref b rb Hb). split.
    + intros H. apply stringify_inj in H;
        [discriminate H | apply Pn | apply plain_ref_key; auto].
    + intros [Eq _]. discriminate Eq.
  - rewrite (keyForColumn_name a Ha), (keyForColumn_name b Hb). split.
    + intros H. apply stringify_inj in H; [|apply Pn|apply Pn].
      injection H as H. split; [reflexivity|intros _; exact H].
    + intros [_ Eq]. rewrite (Eq eq_refl). reflexivity.
Qed.

End KeyEquality.

Lemma keyForColumn_eq_iff_witness :
  keyForColumn (E := Sample.engine) Sample.id_col
  = keyForColumn (E := Sample.engine) Sample.count_col
  <-> fieldRefForColumn Sample.id_col None = fieldRefForColumn Sample.count_col None
      /\ (fieldRefForColumn Sample.id_col None = None ->
          name Sample.id_col = name Sample.count_col).
Proof.
  apply (@keyForColumn_eq_iff Sample.engine Sample.id_col Sample.count_col).
  - intros r H. injection H as <-. reflexivity.
  - intros r H. discriminate H.
Defined.

Section MoreFieldRef.

(** What a non-null answer for a column without id and expression name
    tells: the column is an aggregation found in the array. *)
Lemma fieldRefForColumn_rank (column : Column) (columns : list Column)
  (r : FieldReference) :
  id column = None ->
  expression_name column = None ->
  fieldRefForColumn column (Some columns) = Some r ->
  is_aggregation column = true
  /\ exists k, r = JArr [JStr "aggregation"; JNum (Z.of_nat k)]
               /\ first_at (fun c => oid c = oid column)
                           (filter is_aggregation columns) k.
Proof.
  intros Hid Hexp. unfold fieldRefForColumn. rewrite Hid, Hexp.
  destruct (is_aggregation column); [|discriminate].
  unfold indexOf.
  destruct (findIndex_cases _ _ (fun c => same_object_iff c column)
              (filter is_aggregation columns)) as [[E _] | (k & E & Hk)];
    rewrite E.
  - discriminate.
  - replace (Z.of_nat k >=? 0)%Z with true by (symmetry; apply Z.geb_le; lia).
    intros H. injection H as <-. split; [reflexivity|]. exists k. split; [reflexivity|exact Hk].
Qed.

(** X2: when [fieldRefForColumn column columns] answers a reference for a
    column that has neither id nor expression name, the column's source is
    ["aggregation"] and the reference is [["aggregation", k]], where [k] is
    below the number of aggregation columns of the array and is the first
    position among them that holds the column object. *)
Theorem fieldRefForColumn_aggregation_index :
  forall (column : Column) (columns : list Column) (r : FieldReference),
    id column = None ->
    expression_name column = None ->
    fieldRefForColumn column (Some columns) = Some r ->
    source column = "aggregation"
    /\ exists k,
         r = JArr [JStr "aggregation"; JNum (Z.of_nat k)]
         /\ (k < List.length (filter is_aggregation columns))%nat
         /\ first_at (fun c => oid c = oid column)
                     (filter is_aggregation columns) k.
Proof.
  intros column columns r Hid Hexp H.
  destruct (fieldRefForColumn_rank column columns r Hid Hexp H) as (Hagg & k & -> & Hk).
  split; [apply String.eqb_eq, Hagg|].
  exists k. split; [reflexivity|]. split; [|exact Hk].
  destruct Hk as (x & Hx & _). apply nth_error_Some. congruence.
Qed.

Lemma fieldRefForColumn_aggregation_index_witness :
  source Sample.sum_col = "aggregation"
  /\ exists k,
       JArr [JStr "aggregation"; JNum 1]
       = JArr [JStr "aggregation"; JNum (Z.of_nat k)]
       /\ (k < 2)%nat
       /\ first_at (fun c => oid c = oid Sample.sum_col)
                   [Sample.count_col; Sample.sum_col] k.
Proof.
  exact (fieldRefForColumn_aggregation_index Sample.sum_col
           [Sample.month_col; Sample.count_col; Sample.sum_col]
           (JArr [JStr "aggregation"; JNum 1]) eq_refl eq_refl eq_refl).
Defined.

(** X3: two different column objects of one array, both without id and
    expression name, never get the same reference. *)
Theorem fieldRefForColumn_aggregation_distinct :
  forall (a b : Column) (columns : list Column) (ra rb : FieldReference),
    id a = None -> expression_name a = None ->
    id b = None -> expression_name b = None ->
    fieldRefForColumn a (Some columns) = Some ra ->
    fieldRefForColumn b (Some columns) = Some rb ->
    oid a <> oid b ->
    ra <> rb.
Proof.
  intros a b columns ra rb Ha1 Ha2 Hb1 Hb2 Ha Hb Hne E.
  destruct (fieldRefForColumn_rank a columns ra Ha1 Ha2 Ha)
    as (_ & ka & -> & xa & Hxa & Hoa & _).
  destruct (fieldRefForColumn_rank b columns rb Hb1 Hb2 Hb)
    as (_ & kb & -> & xb & Hxb & Hob & _).
  injection E as E. apply Nat2Z.inj in E. subst kb.
  rewrite Hxa in Hxb. injection Hxb as <-. congruence.
Qed.

Lemma fieldRefForColumn_aggregation_distinct_witness :
  JArr [JStr "aggregation"; JNum 0] <> JArr [JStr "aggregation"; JNum 1].
Proof.
  apply (fieldRefForColumn_aggregation_distinct Sample.count_col Sample.sum_col
           [Sample.month_col; Sample.count_col; Sample.sum_col]);
    try reflexivity.
  discriminate.
Defined.

(** X4: the columns array matters only to an aggregation column without id
    and expression name: for any other column the answer is the same
    whatever array is given, or none; and a column with an id or an
    expression name always gets a reference. *)
Theorem fieldRefForColumn_columns_irrelevant :
  forall (column : Column) (columns1 columns2 : option (list Column)),
    (id column <> None \/ expression_name column <> None
     \/ source column <> "aggregation") ->
    fieldRefForColumn column columns1 = fieldRefForColumn column columns2
    /\ (id column <> None \/ expression_name column <> None ->
        fieldRefForColumn column columns1 <> None).
Proof.
  intros column columns1 columns2 H. unfold fieldRefForColumn.
  destruct (id column) as [[n|r]|].
  - destruct (fk_field_id column); split; [reflexivity|discriminate|reflexivity|discriminate].
  - split; [reflexivity|discriminate].
  - destruct (expression_name column) as [e|].
    + split; [reflexivity|discriminate].
    + destruct H as [H | [H | H]]; try congruence.
      unfold is_aggregation.
      destruct (String.eqb_spec (source column) "aggregation") as [E|_]; [congruence|].
      split; [reflexivity|]. intros [N|N]; congruence.
Qed.

Lemma fieldRefForColumn_columns_irrelevant_witness :
  fieldRefForColumn Sample.month_col (Some [Sample.count_col])
  = fieldRefForColumn Sample.month_col None.
Proof.
  apply (fieldRefForColumn_columns_irrelevant Sample.month_col
           (Some [Sample.count_col]) None).
  left. discriminate.
Defined.

Lemma filter_filter {A} (p : A -> bool) (l : list A) :
  filter p (filter p l) = filter p l.
Proof.
  induction l as [|x l IH]; simpl; [reflexivity|].
  destruct (p x) eqn:Hx; simpl; [rewrite Hx, IH|]; auto.
Qed.

(** X5: the aggregation index counts aggregation columns only: the answer
    on an array is the answer on that array with every column of another
    source removed. *)
Theorem fieldRefForColumn_ignores_other_sources :
  forall (column : Column) (columns : list Column),
    fieldRefForColumn column (Some columns)
    = fieldRefForColumn column (Some (filter is_aggregation columns)).
Proof.
  intros column columns. unfold fieldRefForColumn.
  rewrite filter_filter. reflexivity.
Qed.

End MoreFieldRef.

(** ** Looking a setting up *)

Section MoreLookup.

Context {L : MetabaseLib}.

(** X6: a column answered by [findColumnForColumnSetting] is a column of the
    array, and it matches the setting: its normalized reference is the
    setting's normalized reference (not null), or its name is the setting's
    name. *)
Theorem findColumnForColumnSetting_sound :
  forall (columns : list Column) (cs : ColumnSetting) (col : Column),
    findColumnForColumnSetting columns cs = Some col ->
    In col columns
    /\ ((exists r, normalizeFieldRef (cs_fieldRef cs) = Some r /\ r <> JNull
                   /\ normalizeFieldRef (fieldRefForColumn col None) = Some r)
        \/ name col = cs_name cs).
Proof.
  intros columns cs col. unfold findColumnForColumnSetting. cbv zeta.
  destruct (findColumnIndexForColumnSetting_cases columns cs)
    as [(k & E & x & Hx & HP & _) | (_ & [(k & E & x & Hx & HP & _) | (E & _)])];
    rewrite E.
  - replace (Z.of_nat k >=? 0)%Z with true by (symmetry; apply Z.geb_le; lia).
    rewrite Nat2Z.id, Hx. intros H. injection H as <-.
    split; [apply nth_error_In with k; exact Hx|left; exact HP].
  - replace (Z.of_nat k >=? 0)%Z with true by (symmetry; apply Z.geb_le; lia).
    rewrite Nat2Z.id, Hx. intros H. injection H as <-.
    split; [apply nth_error_In with k; exact Hx|right; exact HP].
  - discriminate.
Qed.

(** X7: [findColumnForColumnSetting] answers [null] exactly when no column
    has the setting's name and no column has the setting's normalized
    reference; so a setting named after a column of the array is always
    found. *)
Theorem findColumnForColumnSetting_none_iff :
  forall (columns : list Column) (cs : ColumnSetting),
    findColumnForColumnSetting columns cs = None
    <-> (forall col, In col columns -> name col <> cs_name cs)
        /\ (forall col r,
               In col columns ->
               normalizeFieldRef (cs_fieldRef cs) = Some r -> r <> JNull ->
               normalizeFieldRef (fieldRefForColumn col None) <> Some r).
Proof.
  intros columns cs. unfold findColumnForColumnSetting. cbv zeta.
  destruct (findColumnIndexForColumnSetting_cases columns cs)
    as [(k & E & x & Hx & HP & _) | (Nref & [(k & E & x & Hx & HP & _) | (E & Nname)])];
    rewrite E.
  - replace (Z.of_nat k >=? 0)%Z with true by (symmetry; apply Z.geb_le; lia).
    rewrite Nat2Z.id, Hx. split; [discriminate|].
    intros [_ H]. exfalso. destruct HP as (r & Hr & Hnn & Hx').
    apply (H x r); auto. apply nth_error_In with k; exact Hx.
  - replace (Z.of_nat k >=? 0)%Z with true by (symmetry; apply Z.geb_le; lia).
    rewrite Nat2Z.id, Hx. split; [discriminate|].
    intros [H _]. exfalso. apply (H x); auto. apply nth_error_In with k; exact Hx.
  - split; [|reflexivity]. intros _. split.
    + exact Nname.
    + intros col r Hin Hr Hnn Hc. apply (Nref col Hin). exists r. auto.
Qed.

(** X8: columns that have no reference of their own (aggregations, taken
    without the columns array) are matched by name only, provided the
    parser answers [null] on [null]: the index is then that of the first
    column named as the setting, whatever reference the setting carries. *)
Theorem findColumnIndexForColumnSetting_by_name_only :
  forall (columns : list Column) (cs : ColumnSetting),
    parseMBQL None = None ->
    (forall col, In col columns -> id col = None /\ expression_name col = None) ->
    findColumnIndexForColumnSetting columns cs
    = Underscore.findIndex (fun col => String.eqb (name col) (cs_name cs)) columns.
Proof.
  intros columns cs Hparse Hcols.
  assert (Hname : forall col,
             String.eqb (name col) (cs_name cs) = true <-> name col = cs_name cs)
    by (intros col; apply String.eqb_eq).
  destruct (findColumnIndexForColumnSetting_cases columns cs)
    as [(k & _ & x & Hx & (r & _ & _ & HP) & _)
       | (_ & [(k & E & Hk) | (E & Nname)])].
  - exfalso. destruct (Hcols x (nth_error_In _ _ Hx)) as [Hid Hexp].
    unfold fieldRefForColumn in HP. rewrite Hid, Hexp in HP.
    unfold normalizeFieldRef in HP.
    destruct (is_aggregation x); rewrite Hparse in HP; discriminate HP.
  - rewrite E. symmetry. apply (findIndex_found _ _ Hname columns k Hk).
  - rewrite E. symmetry. apply (findIndex_none _ _ Hname columns Nname).
Qed.

End MoreLookup.

Lemma findColumnIndexForColumnSetting_by_name_only_witness :
  findColumnIndexForColumnSetting [Sample.count_col; Sample.sum_col]
    (Sample.setting "sum" (Some (JArr [JStr "field-id"; JNum 1])) true) = 1%Z.
Proof.
  apply (@findColumnIndexForColumnSetting_by_name_only Sample.lib
           [Sample.count_col; Sample.sum_col]
           (Sample.setting "sum" (Some (JArr [JStr "field-id"; JNum 1])) true)).
  - reflexivity.
  - intros col [<-|[<-|[]]]; split; reflexivity.
Defined.

Lemma findColumnForColumnSetting_sound_witness :
  In Sample.name_col [Sample.id_col; Sample.name_col]
  /\ ((exists r,
          normalizeFieldRef (Some (JArr [JStr "fk->"; JNum 7; JNum 2])) = Some r
          /\ r <> JNull
          /\ normalizeFieldRef (fieldRefForColumn Sample.name_col None) = Some r)
      \/ name Sample.name_col = "ID").
Proof.
  apply (@findColumnForColumnSetting_sound Sample.lib
           [Sample.id_col; Sample.name_col]
           (Sample.setting "ID" (Some (JArr [JStr "fk->"; JNum 7; JNum 2])) true)
           Sample.name_col).
  reflexivity.
Defined.

(** ** The loop over the settings *)

Section MoreSync.

Context {L : MetabaseLib}.

Lemma for_of_app {A S} (xs ys : list A) (body : S -> A -> Eff S) (s : S) :
  for_of (xs ++ ys) body s = bind (for_of xs body s) (for_of ys body).
Proof.
  revert s. induction xs as [|x xs IH]; intros s; simpl.
  - unfold bind, ret. destruct (for_of ys body s). reflexivity.
  - destruct (body s x) as [[s'|e] w]; unfold bind; [|reflexivity].
    rewrite IH. unfold bind.
    destruct (for_of xs body s') as [[s''|e] w']; [|reflexivity].
    destruct (for_of ys body s'') as [o w'']. rewrite app_assoc. reflexivity.
Qed.

Lemma for_of_disabled (dims : list Dimension) (names : list string)
  (settings : list ColumnSetting) (q0 : StructuredQuery) :
  (forall cs, In cs settings -> cs_enabled cs = false) ->
  for_of settings (sync_setting dims names) q0 = (Returned q0, []).
Proof.
  induction settings as [|cs settings IH]; intros H; simpl; [reflexivity|].
  unfold sync_setting at 1. rewrite (H cs (or_introl eq_refl)).
  unfold bind, ret. cbv beta iota.
  rewrite IH by (intros c Hc; apply H; right; exact Hc).
  reflexivity.
Qed.

(** X9: a setting that is not enabled is passed over: the loop ends in the
    same query, with the same warnings, as if the setting were not in the
    list.  Nothing is assumed of the library. *)
Theorem sync_loop_skips_disabled :
  forall (dims : list Dimension) (names : list string)
         (before after : list ColumnSetting) (cs : ColumnSetting)
         (q0 : StructuredQuery),
    cs_enabled cs = false ->
    for_of (before ++ cs :: after) (sync_setting dims names) q0
    = for_of (before ++ after) (sync_setting dims names) q0.
Proof.
  intros dims names before after cs q0 Hd.
  rewrite !for_of_app.
  destruct (for_of before (sync_setting dims names) q0) as [[q1|e] w];
    unfold bind; [|reflexivity].
  simpl for_of. unfold sync_setting at 1. rewrite Hd.
  unfold bind, ret. cbv beta iota.
  destruct (for_of after (sync_setting dims names) q1) as [o w']. reflexivity.
Qed.

Lemma baseline_dimension_None (n : string) (names : list string)
  (dims : list Dimension) :
  (List.length names <= List.length dims)%nat ->
  baseline_dimension names dims n = None <-> ~ In n names.
Proof.
  unfold baseline_dimension.
  revert dims. induction names as [|x names IH]; intros dims Hlen.
  - simpl. split; [intros _ []|reflexivity].
  - destruct dims as [|d dims]; [simpl in Hlen; lia|].
    simpl. destruct (String.eqb_spec x n) as [->|Hx]; simpl.
    + split; [discriminate|]. intros H. exfalso. apply H. left; reflexivity.
    + rewrite (IH dims) by (simpl in Hlen; lia).
      split; [intros H [E|E]; auto | intros H E; apply H; right; exact E].
Qed.

Lemma unresolved_iff (dims : list Dimension) (names : list string)
  (cs : ColumnSetting) :
  (List.length names <= List.length dims)%nat ->
  unresolved dims names cs = true
  <-> cs_enabled cs = true
      /\ JS.truthy_opt JS.truthy (cs_fieldRef cs) = false
      /\ (cs_name cs = "" \/ ~ In (cs_name cs) names).
Proof.
  intros Hlen. unfold unresolved, setting_field.
  rewrite andb_true_iff.
  pose proof (baseline_dimension_None (cs_name cs) names dims Hlen) as Hb.
  destruct (cs_fieldRef cs) as [r|]; simpl JS.truthy_opt;
    [destruct (JS.truthy r)|];
    try (split; [intros [_ H]; discriminate H | intros (_ & H & _); discriminate H]);
    (destruct (cs_name cs) as [|c n] eqn:Hn; simpl JS.truthy_string;
     [ split; [intros [He _]; auto | intros (He & _ & _); auto]
     | rewrite <- Hn in *;
       destruct (baseline_dimension names dims (cs_name cs)) as [d|]; simpl;
       [ split;
         [ intros [_ H]; discriminate H
         | intros (_ & _ & [H|H]); [rewrite Hn in H; discriminate H|];
           apply Hb in H; discriminate H ]
       | split; [intros [He _] | intros (He & _ & _); auto];
         split; [exact He|]; split; [reflexivity|];
         right; apply Hb; reflexivity ] ]).
Qed.

(** X10: the settings [syncTableColumnsToQuery] warns about are exactly the
    enabled settings of the list whose [fieldRef] is missing or falsy and
    whose name is empty or is not a column name of the cleared query.  A
    setting with a field reference is never warned about, whether or not
    its name is known. *)
Theorem syncTableColumnsToQuery_warnings :
  forall (q : Question) (settings : list ColumnSetting) (sq : StructuredQuery),
    table_columns q = Some (map Some settings) ->
    query q = IsStructured sq ->
    (List.length (columnNames (clearFields sq))
     <= List.length (columnDimensions (clearFields sq)))%nat ->
    forall cs,
      In cs (snd (syncTableColumnsToQuery q))
      <-> In cs settings
          /\ cs_enabled cs = true
          /\ JS.truthy_opt JS.truthy (cs_fieldRef cs) = false
          /\ (cs_name cs = "" \/ ~ In (cs_name cs) (columnNames (clearFields sq))).
Proof.
  intros q settings sq Hs Hq Hlen cs.
  rewrite (syncTableColumnsToQuery_structured q settings sq Hs Hq Hlen).
  simpl snd. rewrite filter_In, (unresolved_iff _ _ cs Hlen). reflexivity.
Qed.

Lemma explicit_fields_count (dims : list Dimension) (names : list string)
  (settings : list ColumnSetting) :
  (List.length (explicit_fields dims names settings)
   + List.length (filter (unresolved dims names) settings)
   = List.length (filter cs_enabled settings))%nat.
Proof.
  induction settings as [|cs settings IH]; [reflexivity|].
  rewrite explicit_fields_cons, length_app. simpl filter.
  unfold explicit_fields at 1, unresolved at 1. simpl flat_map.
  destruct (cs_enabled cs); simpl andb.
  - destruct (setting_field dims names cs); simpl; lia.
  - simpl. exact IH.
Qed.

(** X11: the loop handles each enabled setting once: it ends in the start
    query with some fields added, and the fields added and the warnings
    logged are together as many as the enabled settings. *)
Theorem sync_loop_counts :
  forall (dims : list Dimension) (names : list string)
         (settings : list ColumnSetting) (q0 : StructuredQuery),
    (List.length names <= List.length dims)%nat ->
    exists fields log,
      for_of settings (sync_setting dims names) q0
      = (Returned (fold_left addField fields q0), log)
      /\ (List.length fields + List.length log
          = List.length (filter cs_enabled settings))%nat.
Proof.
  intros dims names settings q0 Hlen.
  exists (explicit_fields dims names settings),
    (filter (unresolved dims names) settings).
  split; [apply for_of_sync_setting, Hlen|apply explicit_fields_count].
Qed.

(** X12: when the name of an enabled setting without field reference is
    found among the column names at an index where the cleared query has no
    dimension, [columnDimensions[index].mbql()] raises: the function ends in
    a [TypeError], the settings after it are not handled, and only the
    warnings of the settings before it were logged. *)
Theorem syncTableColumnsToQuery_raises :
  forall (q : Question) (before after : list ColumnSetting) (cs : ColumnSetting)
         (sq q1 : StructuredQuery) (log1 : list ColumnSetting) (k : nat),
    table_columns q = Some (map Some (before ++ cs :: after)) ->
    query q = IsStructured sq ->
    for_of before
      (sync_setting (columnDimensions (clearFields sq))
                    (columnNames (clearFields sq))) (clearFields sq)
    = (Returned q1, log1) ->
    cs_enabled cs = true ->
    JS.truthy_opt JS.truthy (cs_fieldRef cs) = false ->
    cs_name cs <> "" ->
    first_at (fun n => n = cs_name cs) (columnNames (clearFields sq)) k ->
    (List.length (columnDimensions (clearFields sq)) <= k)%nat ->
    syncTableColumnsToQuery q = (Thrown TypeError, log1).
Proof.
  intros q before after cs sq q1 log1 k Hs Hq Hbefore He Hf Hn Hk Hlen.
  assert (Hcs : sync_setting (columnDimensions (clearFields sq))
                  (columnNames (clearFields sq)) q1 cs = (Thrown TypeError, [])).
  { assert (Hby : sync_setting_by_name (columnDimensions (clearFields sq))
                    (columnNames (clearFields sq)) q1 cs = (Thrown TypeError, [])).
    { unfold sync_setting_by_name.
      assert (Ht : JS.truthy_string (cs_name cs) = true)
        by (destruct (cs_name cs); [congruence|reflexivity]).
      rewrite Ht. cbv zeta.
      rewrite (findIndex_found _ (fun n => n = cs_name cs)
                 (fun n => String.eqb_eq n (cs_name cs)) _ k Hk).
      replace (Z.of_nat k >=? 0)%Z with true by (symmetry; apply Z.geb_le; lia).
      rewrite Nat2Z.id.
      replace (nth_error (columnDimensions (clearFields sq)) k)
        with (@None Dimension) by (symmetry; apply nth_error_None; exact Hlen).
      reflexivity. }
    unfold sync_setting. rewrite He.
    destruct (cs_fieldRef cs) as [r|]; simpl in Hf; [rewrite Hf|]; exact Hby. }
  assert (Hloop : for_of (before ++ cs :: after)
                    (sync_setting (columnDimensions (clearFields sq))
                                  (columnNames (clearFields sq))) (clearFields sq)
                  = (Thrown TypeError, log1)).
  { rewrite for_of_app, Hbefore. unfold bind at 1. simpl for_of.
    rewrite Hcs. unfold bind. rewrite app_nil_r. reflexivity. }
  unfold syncTableColumnsToQuery. rewrite Hs, Hq. cbv zeta.
  rewrite for_of_entries, Hloop. reflexivity.
Qed.

(** X13: when the list of settings is empty, or none of them is enabled, the
    function still acts: it returns the question of the query with its
    explicit fields cleared (cleared once or twice), so the fields the
    query had are dropped; nothing is logged. *)
Theorem syncTableColumnsToQuery_nothing_enabled :
  forall (q : Question) (settings : list ColumnSetting) (sq : StructuredQuery),
    table_columns q = Some (map Some settings) ->
    query q = IsStructured sq ->
    (forall cs, In cs settings -> cs_enabled cs = false) ->
    syncTableColumnsToQuery q = (Returned (question (clearFields sq)), [])
    \/ syncTableColumnsToQuery q
       = (Returned (question (clearFields (clearFields sq))), []).
Proof.
  intros q settings sq Hs Hq Hd.
  unfold syncTableColumnsToQuery. rewrite Hs, Hq. cbv zeta.
  rewrite for_of_entries, (for_of_disabled _ _ settings (clearFields sq) Hd).
  unfold bind. destruct (_ && _); [right|left]; reflexivity.
Qed.

End MoreSync.

Lemma sync_loop_skips_disabled_witness :
  for_of Sample.name_hidden
    (sync_setting (L := Sample.lib) (Sample.dims (Sample.mkSQ Sample.people [] None))
       ["ID"; "NAME"; "CREATED_AT"])
    (Sample.mkSQ Sample.people [] None)
  = for_of
      [Sample.setting "ID" None true; Sample.setting "DISCOUNT" None true;
       Sample.setting "CREATED_AT" None true]
      (sync_setting (L := Sample.lib) (Sample.dims (Sample.mkSQ Sample.people [] None))
         ["ID"; "NAME"; "CREATED_AT"])
      (Sample.mkSQ Sample.people [] None).
Proof.
  apply (@sync_loop_skips_disabled Sample.lib
           (Sample.dims (Sample.mkSQ Sample.people [] None))
           ["ID"; "NAME"; "CREATED_AT"]
           [Sample.setting "ID" None true]
           [Sample.setting "DISCOUNT" None true; Sample.setting "CREATED_AT" None true]
           (Sample.setting "NAME" (Some (JArr [JStr "field-id"; JNum 2])) false)).
  reflexivity.
Defined.

Lemma syncTableColumnsToQuery_warnings_witness :
  In (Sample.setting "DISCOUNT" None true)
     (snd (syncTableColumnsToQuery
             (Sample.question_with [JNum 2] (Some Sample.name_hidden)))).
Proof.
  apply (proj2 (@syncTableColumnsToQuery_warnings Sample.lib
                  (Sample.question_with [JNum 2] (Some Sample.name_hidden))
                  Sample.name_hidden
                  (Sample.structured [JNum 2] (Some Sample.name_hidden))
                  eq_refl eq_refl (le_n 3)
                  (Sample.setting "DISCOUNT" None true))).
  split; [right; right; left; reflexivity|].
  split; [reflexivity|]. split; [reflexivity|].
  right. intros [H|[H|[H|[]]]]; discriminate H.
Defined.

Lemma sync_loop_counts_witness :
  exists fields log,
    for_of Sample.name_hidden
      (sync_setting (L := Sample.lib)
         (Sample.dims (Sample.mkSQ Sample.people [] None))
         ["ID"; "NAME"; "CREATED_AT"])
      (Sample.mkSQ Sample.people [] None)
    = (Returned (fold_left (addField (MetabaseLib := Sample.lib)) fields
                   (Sample.mkSQ Sample.people [] None)), log)
    /\ (List.length fields + List.length log = 3)%nat.
Proof.
  apply (@sync_loop_counts Sample.lib
           (Sample.dims (Sample.mkSQ Sample.people [] None))
           ["ID"; "NAME"; "CREATED_AT"] Sample.name_hidden
           (Sample.mkSQ Sample.people [] None)).
  exact (le_n 3).
Defined.

Lemma syncTableColumnsToQuery_raises_witness :
  syncTableColumnsToQuery (L := Sample.lib_extra_name)
    (Sample.question_with [] (Some Sample.discount_asked))
  = (Thrown TypeError, []).
Proof.
  pose (settings := Sample.discount_asked).
  apply (@syncTableColumnsToQuery_raises Sample.lib_extra_name
           (Sample.question_with [] (Some settings))
           [Sample.setting "ID" None true] [Sample.setting "NAME" None true]
           (Sample.setting "DISCOUNT" None true)
           (Sample.structured [] (Some settings))
           (Sample.structured [JArr [JStr "field-id"; JNum 1]] (Some settings))
           [] 3%nat); try reflexivity.
  - discriminate.
  - exists "DISCOUNT". split; [reflexivity|]. split; [reflexivity|].
    intros [|[|[|j]]] y Hj Hy; [| | |lia];
      injection Hy as <-; discriminate.
Defined.

Lemma syncTableColumnsToQuery_nothing_enabled_witness :
  syncTableColumnsToQuery (Sample.question_with [JNum 2] (Some []))
  = (Returned (Sample.question_with [] (Some [])), []).
Proof.
  destruct (@syncTableColumnsToQuery_nothing_enabled Sample.lib
              (Sample.question_with [JNum 2] (Some [])) []
              (Sample.mkSQ Sample.people [JNum 2] (Some [])) eq_refl eq_refl)
    as [H|H].
  - intros cs [].
  - exact H.
  - exact H.
Defined.

(** ** A null entry among the settings *)

Section NullEntry.

Context {L : MetabaseLib}.

(** X14: an entry of [table.columns] that is [null] or [undefined] stops the
    function: once the settings before it have been handled, reading
    [columnSetting.enabled] raises a [TypeError]; the entries after it are
    not handled and only the warnings logged so far remain. *)
Theorem syncTableColumnsToQuery_null_entry_raises :
  forall (q : Question) (before : list ColumnSetting)
         (after : list (option ColumnSetting))
         (sq q1 : StructuredQuery) (log1 : list ColumnSetting),
    table_columns q = Some (map Some before ++ None :: after) ->
    query q = IsStructured sq ->
    for_of before
      (sync_setting (columnDimensions (clearFields sq))
                    (columnNames (clearFields sq))) (clearFields sq)
    = (Returned q1, log1) ->
    syncTableColumnsToQuery q = (Thrown TypeError, log1).
Proof.
  intros q before after sq q1 log1 Hs Hq Hbefore.
  unfold syncTableColumnsToQuery. rewrite Hs, Hq. cbv zeta.
  rewrite for_of_app, for_of_entries, Hbefore.
  unfold bind at 2. simpl for_of. unfold bind, throw.
  rewrite !app_nil_r. reflexivity.
Qed.

End NullEntry.

Lemma syncTableColumnsToQuery_null_entry_raises_witness :
  syncTableColumnsToQuery
    (Sample.question_with_entries [JNum 2]
       (Some [Some (Sample.setting "DISCOUNT" None true); None;
              Some (Sample.setting "ID" None true)]))
  = (Thrown TypeError, [Sample.setting "DISCOUNT" None true]).
Proof.
  apply (@syncTableColumnsToQuery_null_entry_raises Sample.lib
           (Sample.question_with_entries [JNum 2]
              (Some [Some (Sample.setting "DISCOUNT" None true); None;
                     Some (Sample.setting "ID" None true)]))
           [Sample.setting "DISCOUNT" None true]
           [Some (Sample.setting "ID" None true)]
           (Sample.structured_entries [JNum 2]
              (Some [Some (Sample.setting "DISCOUNT" None true); None;
                     Some (Sample.setting "ID" None true)]))
           (Sample.structured_entries []
              (Some [Some (Sample.setting "DISCOUNT" None true); None;
                     Some (Sample.setting "ID" None true)]))
           [Sample.setting "DISCOUNT" None true]);
    reflexivity.
Defined.
